(** * marktec: the technical-analysis engine

    A shallow embedding of [src/technical_analysis.py] and the properties
    its specification states about it, followed by the parts of the data
    layer ([crypto_data.py], [futures_data.py], [currency_data.py]) and of
    the dashboard ([app.py]) that compute: metadata, top gainers, retry and
    ticker navigation.

    Conventions of the embedding.
    - A pandas [DataFrame] with the columns [date], [open], [high], [low],
      [close], [volume] and the default [RangeIndex] is a list of rows; the
      label [i] of a row is its position.
    - Prices are exact rationals ([Q]); a timestamp is an integer.  The one
      non-finite value the engine can produce from finite prices, the [NaN]
      pandas returns for the minimum or maximum of a column without values,
      is modelled by the type [num].
    - A Python exception (of class [Exception]) is the [Raise] case of
      [result]; every [try ... except Exception] of the source is a
      [try_except], or a [try_fig] where the body works on the figure.
    - The plotting library is outside the repository: which of its calls it
      refuses is a parameter of the chart composer. *)

From Stdlib Require Import QArith Qminmax Lqa Sorted Ascii.
From stdpp Require Import gmap strings list fin_maps pretty sorting.

(** ** Python prelude: exceptions, [range], [for], [all] *)

Inductive exn : Type :=
| KeyError (label : nat)
| IndexError (position : Z)
| AttributeError (what : string)
| LibraryError (what : string).

Inductive result (A : Type) : Type :=
| Ok (a : A)
| Raise (e : exn).
Arguments Ok {A} a.
Arguments Raise {A} e.

#[global] Instance result_ret : MRet result := fun _ a => Ok a.
#[global] Instance result_bind : MBind result := fun _ _ f m =>
  match m with
  | Ok a => f a
  | Raise e => Raise e
  end.

(** [try: body except Exception as e: handler e] *)
Definition try_except {A : Type} (body : result A) (handler : exn -> A) : A :=
  match body with
  | Ok a => a
  | Raise e => handler e
  end.

(** [range(a, b)]: empty as soon as [b <= a], as in Python. *)
Definition range (a b : nat) : list nat := seq a (b - a).

(** [for i in positions: acc = body i acc], stopping at the first exception. *)
Fixpoint for_each {S : Type} (body : nat -> S -> result S)
    (positions : list nat) (acc : S) : result S :=
  match positions with
  | [] => Ok acc
  | i :: rest => acc' ← body i acc; for_each body rest acc'
  end.

(** [all(test j for j in js)]: the generator is consumed up to the first
    false value, so a test past that point is never evaluated. *)
Fixpoint all_of (test : nat -> result bool) (js : list nat) : result bool :=
  match js with
  | [] => Ok true
  | j :: rest => b ← test j; if b : bool then all_of test rest else Ok false
  end.

(** [a and b] on two fallible boolean expressions. *)
Definition and_then (a b : result bool) : result bool :=
  x ← a; if x : bool then b else Ok false.

(** [not xs] on a Python list. *)
Definition is_empty {A : Type} (xs : list A) : bool :=
  match xs with
  | [] => true
  | _ :: _ => false
  end.

Definition Qlt_bool (x y : Q) : bool := negb (Qle_bool y x).
Definition Qge_bool (x y : Q) : bool := Qle_bool y x.

(** ** Data model *)

Record PricePoint : Type := {
  date : Z;
  open : Q;
  high : Q;
  low : Q;
  close : Q;
  volume : Q
}.

Abbreviation Series := (list PricePoint).

(** A level, a swing point and a signal event are all [(date, price)]
    tuples in the source. *)
Abbreviation Point := (Z * Q)%type.

(** [df[col][i]]: lookup by label in a column; a missing label raises. *)
Definition at_label {A : Type} (col : PricePoint -> A) (df : Series)
    (i : nat) : result A :=
  match df !! i with
  | Some row => Ok (col row)
  | None => Raise (KeyError i)
  end.

(** [df[col].iloc[i]] for [0 <= i]: lookup by position. *)
Definition iloc {A : Type} (col : PricePoint -> A) (df : Series)
    (i : nat) : result A :=
  match df !! i with
  | Some row => Ok (col row)
  | None => Raise (IndexError (Z.of_nat i))
  end.

(** [df[col].iloc[-1]]: the last row; an empty frame raises. *)
Definition iloc_last {A : Type} (col : PricePoint -> A) (df : Series) : result A :=
  match last df with
  | Some row => Ok (col row)
  | None => Raise (IndexError (-1))
  end.

(** [str(e)] of an exception. *)
Definition exn_message (e : exn) : string :=
  match e with
  | KeyError label => pretty label
  | IndexError _ => "single positional indexer is out-of-bounds"
  | AttributeError what => what
  | LibraryError what => what
  end.

(** ** Extremum scanner and support/resistance detector *)

Module Scanner.

(** [all(df[col][i] <= df[col][i-j] for j in range(1, window+1)) and
     all(df[col][i] <= df[col][i+j] for j in range(1, window+1))];
    [cmp] is [<=] on the [low] column and [>=] on the [high] column.  The
    scan only calls it with [window <= i], where [i - j] is the exact
    difference. *)
Definition is_extremum (cmp : Q -> Q -> bool) (col : PricePoint -> Q)
    (df : Series) (window i : nat) : result bool :=
  and_then
    (all_of (fun j => x ← at_label col df i; y ← at_label col df (i - j);
                      Ok (cmp x y)) (range 1 (window + 1)))
    (all_of (fun j => x ← at_label col df i; y ← at_label col df (i + j);
                      Ok (cmp x y)) (range 1 (window + 1))).

(** One iteration of
    [if <extremum test>: out.append((df['date'][i], df[col][i]))]. *)
Definition scan_step (cmp : Q -> Q -> bool) (col : PricePoint -> Q)
    (df : Series) (window i : nat) (out : list Point) : result (list Point) :=
  b ← is_extremum cmp col df window i;
  if b : bool then
    d ← at_label date df i; p ← at_label col df i; Ok (out ++ [(d, p)])
  else Ok out.

(** The body of the [try] of [calculate_support_resistance]. *)
Definition support_resistance_body (df : Series) (window : nat)
    : result (list Point * list Point) :=
  supports ← for_each (scan_step Qle_bool low df window)
                (range window (length df - window)) [];
  resistances ← for_each (scan_step Qge_bool high df window)
                (range window (length df - window)) [];
  Ok (supports, resistances).

Definition calculate_support_resistance (df : Series) (window : nat)
    : list Point * list Point :=
  try_except (support_resistance_body df window) (fun _ => ([], [])).

(** The default [window=10]. *)
Definition default_window : nat := 10.

End Scanner.

(** ** Fibonacci calculator *)

(** A float that is either a finite price or [NaN]. *)
Inductive num : Type :=
| Fin (q : Q)
| NaN.

Definition num_sub (a b : num) : num :=
  match a, b with
  | Fin x, Fin y => Fin (x - y)
  | _, _ => NaN
  end.

Definition num_mul (a b : num) : num :=
  match a, b with
  | Fin x, Fin y => Fin (x * y)
  | _, _ => NaN
  end.

Module Fibonacci.

(** [Series.min()] and [Series.max()] of pandas: the smallest (largest)
    value of the column, and [NaN], not an exception, when the column has no
    value. *)
Definition column_min (values : list Q) : num :=
  match values with
  | [] => NaN
  | v :: rest => Fin (foldl Qmin v rest)
  end.

Definition column_max (values : list Q) : num :=
  match values with
  | [] => NaN
  | v :: rest => Fin (foldl Qmax v rest)
  end.

(** The body of the [try] of [calculate_fibonacci_retracement]; the keys of
    the dictionary are the strings of the source. *)
Definition fibonacci_body (df : Series) : result (gmap string num) :=
  let lowest_price := column_min (low <$> df) in
  let highest_price := column_max (high <$> df) in
  let price_diff := num_sub highest_price lowest_price in
  Ok (<["1.0" := lowest_price]>
     (<["0.786" := num_sub highest_price (num_mul (Fin 0.786%Q) price_diff)]>
     (<["0.618" := num_sub highest_price (num_mul (Fin 0.618%Q) price_diff)]>
     (<["0.5" := num_sub highest_price (num_mul (Fin 0.5%Q) price_diff)]>
     (<["0.382" := num_sub highest_price (num_mul (Fin 0.382%Q) price_diff)]>
     (<["0.236" := num_sub highest_price (num_mul (Fin 0.236%Q) price_diff)]>
     (<["0.0" := highest_price]> ∅))))))).

Definition calculate_fibonacci_retracement (df : Series) : gmap string num :=
  try_except (fibonacci_body df) (fun _ => ∅).

(** The seven ratio keys in increasing order, each with the ratio it
    denotes. *)
Definition ratio_keys : list (string * Q) :=
  [("0.0", 0); ("0.236", 0.236); ("0.382", 0.382); ("0.5", 0.5);
   ("0.618", 0.618); ("0.786", 0.786); ("1.0", 1)]%Q.

End Fibonacci.

(** ** Swing points and ABC patterns *)

Inductive ExtremumKind : Type := KMin | KMax.

#[global] Instance ExtremumKind_eq_dec : EqDecision ExtremumKind.
Proof. solve_decision. Defined.

Module Swing.

(** The three parallel lists [extrema_dates], [extrema_prices],
    [extrema_types] (and [waves], [wave_types] of the wave scanner) grow in
    lockstep; an entry of the merged sequence is one row of them. *)
Record Extrema : Type := {
  extrema_dates : list Z;
  extrema_prices : list Q;
  extrema_types : list ExtremumKind
}.

(** The merged swing-point sequence: entry [k] is row [k] of the three
    lists. *)
Definition merged (e : Extrema) : list (Point * ExtremumKind) :=
  zip (zip (extrema_dates e) (extrema_prices e)) (extrema_types e).

Definition no_extrema : Extrema :=
  {| extrema_dates := []; extrema_prices := []; extrema_types := [] |}.

Definition append_extremum (d : Z) (p : Q) (k : ExtremumKind) (e : Extrema)
    : Extrema :=
  {| extrema_dates := extrema_dates e ++ [d];
     extrema_prices := extrema_prices e ++ [p];
     extrema_types := extrema_types e ++ [k] |}.

(** One iteration of the extremum loop of [identify_abc_patterns]: first the
    local-minimum test on [low], then the local-maximum test on [high],
    with the fixed window 5 ([range(1, 6)]). *)
Definition extrema_step (df : Series) (i : nat) (e : Extrema) : result Extrema :=
  is_min ← Scanner.is_extremum Qle_bool low df 5 i;
  e1 ← (if is_min : bool then
          d ← at_label date df i; p ← at_label low df i;
          Ok (append_extremum d p KMin e)
        else Ok e);
  is_max ← Scanner.is_extremum Qge_bool high df 5 i;
  if is_max : bool then
    d ← at_label date df i; p ← at_label high df i;
    Ok (append_extremum d p KMax e1)
  else Ok e1.

Definition find_extrema (df : Series) : result Extrema :=
  for_each (extrema_step df) (range 5 (length df - 5)) no_extrema.

(** [xs[i]] on a Python list, [0 <= i]. *)
Definition item {A : Type} (xs : list A) (i : nat) : result A :=
  match xs !! i with
  | Some x => Ok x
  | None => Raise (IndexError (Z.of_nat i))
  end.

(** One iteration of the pattern loop. *)
Definition abc_step (e : Extrema) (i : nat) (abc_patterns : list (list Point))
    : result (list (list Point)) :=
  t0 ← item (extrema_types e) i;
  matches ←
    (if decide (t0 = KMax) then
       t1 ← item (extrema_types e) (i + 1);
       if decide (t1 = KMin) then
         t2 ← item (extrema_types e) (i + 2);
         Ok (bool_decide (t2 = KMax))
       else Ok false
     else Ok false);
  if matches : bool then
    d0 ← item (extrema_dates e) i; p0 ← item (extrema_prices e) i;
    d1 ← item (extrema_dates e) (i + 1); p1 ← item (extrema_prices e) (i + 1);
    d2 ← item (extrema_dates e) (i + 2); p2 ← item (extrema_prices e) (i + 2);
    Ok (abc_patterns ++ [[(d0, p0); (d1, p1); (d2, p2)]])
  else Ok abc_patterns.

Definition abc_body (df : Series) : result (list (list Point)) :=
  e ← find_extrema df;
  for_each (abc_step e) (range 0 (length (extrema_types e) - 2)) [].

Definition identify_abc_patterns (df : Series) : list (list Point) :=
  try_except (abc_body df) (fun _ => []).

(** [identify_elliot_waves]: the same extremum loop, collecting
    [waves] (the [(date, price)] tuples) and [wave_types]. *)
Definition waves_step (df : Series) (i : nat)
    (acc : list Point * list ExtremumKind)
    : result (list Point * list ExtremumKind) :=
  is_min ← Scanner.is_extremum Qle_bool low df 5 i;
  acc1 ← (if is_min : bool then
            d ← at_label date df i; p ← at_label low df i;
            Ok (acc.1 ++ [(d, p)], acc.2 ++ [KMin])
          else Ok acc);
  is_max ← Scanner.is_extremum Qge_bool high df 5 i;
  if is_max : bool then
    d ← at_label date df i; p ← at_label high df i;
    Ok (acc1.1 ++ [(d, p)], acc1.2 ++ [KMax])
  else Ok acc1.

Definition waves_body (df : Series) : result (list Point * list ExtremumKind) :=
  for_each (waves_step df) (range 5 (length df - 5)) ([], []).

Definition identify_elliot_waves (df : Series) : list Point * list ExtremumKind :=
  try_except (waves_body df) (fun _ => ([], [])).

End Swing.

(** ** Signal detector *)

Module Signals.

(** [previous_close < price and current_close >= price] *)
Definition crosses (previous_close current_close : Q) (level : Point) : bool :=
  Qlt_bool previous_close level.2 && Qge_bool current_close level.2.

(** [for date, price in levels: if <crosses>: <append>; break]: the level at
    which the loop breaks, if it does. *)
Fixpoint breaking_level (previous_close current_close : Q)
    (levels : list Point) : option Point :=
  match levels with
  | [] => None
  | level :: rest =>
      if crosses previous_close current_close level then Some level
      else breaking_level previous_close current_close rest
  end.

(** One iteration of the loop over the positions. *)
Definition signal_step (df : Series) (support_prices resistance_prices : list Point)
    (i : nat) (acc : list Point * list Point) : result (list Point * list Point) :=
  current_close ← iloc close df i;
  previous_close ← iloc close df (i - 1);
  current_date ← iloc date df i;
  let buy_signals :=
    match breaking_level previous_close current_close support_prices with
    | Some _ => acc.1 ++ [(current_date, current_close)]
    | None => acc.1
    end in
  let sell_signals :=
    match breaking_level previous_close current_close resistance_prices with
    | Some _ => acc.2 ++ [(current_date, current_close)]
    | None => acc.2
    end in
  Ok (buy_signals, sell_signals).

(** [pd.to_datetime] on a timestamp is the identity. *)
Definition to_datetime (d : Z) : Z := d.

Definition signals_body (df : Series) (supports resistances : list Point)
    : result (list Point * list Point) :=
  let support_prices := (fun l : Point => (to_datetime l.1, l.2)) <$> supports in
  let resistance_prices := (fun l : Point => (to_datetime l.1, l.2)) <$> resistances in
  if is_empty support_prices || is_empty resistance_prices
  then Ok ([], [])
  else for_each (signal_step df support_prices resistance_prices)
         (range 1 (length df)) ([], []).

Definition detect_signal_points (df : Series) (supports resistances : list Point)
    : list Point * list Point :=
  try_except (signals_body df supports resistances) (fun _ => ([], [])).

End Signals.

(** ** Chart composer *)

Module Chart.

(** *** Figures of the plotting library *)

(** A marker; [outline] is its [line=dict(width=..., color=...)]. *)
Record Marker : Type := {
  symbol : string; size : nat; color : string;
  outline : option (nat * string)
}.

Inductive Trace : Type :=
| Candlestick (x : list Z) (o h l c : list Q) (name : string)
| Bar (x : list Z) (y : list Q) (bar_color : string) (name : string)
| Scatter (x : list Z) (y : list Q) (mode : string) (marker : Marker)
          (text : list string) (name : string).

Record Shape : Type := {
  x0 : Z; y0 : num; x1 : Z; y1 : num;
  line_color : string; line_dash : string
}.

(** The abscissa of an annotation: a timestamp of the series, or a plain
    number. *)
Inductive Abscissa : Type := AtDate (d : Z) | AtNumber (q : Q).

Record Annotation : Type := {
  ann_x : Abscissa; ann_y : num; ann_text : string;
  ann_xanchor : option string; ann_font_size : option nat
}.

Record Layout : Type := {
  title : string; xaxis_title : string; yaxis_title : string;
  height : nat; xaxis_rangeslider_visible : bool
}.

(** A figure: its subplot grid, its traces with the row each was added to,
    its shapes, its annotations and its layout. *)
Record Figure : Type := {
  rows : nat;
  data : list (Trace * nat);
  shapes : list Shape;
  annotations : list Annotation;
  layout : option Layout
}.

(** [go.Figure()] *)
Definition blank_figure : Figure :=
  {| rows := 1; data := []; shapes := []; annotations := []; layout := None |}.

(** The calls into the plotting library that [create_chart] makes on its
    figure. *)
Inductive Call : Type :=
| MakeSubplots
| AddTrace (t : Trace) (row : nat)
| AddShape (s : Shape)
| AddAnnotation (a : Annotation)
| UpdateLayout (l : Layout).

(** The effect of an accepted call. *)
Definition perform (c : Call) (fig : Figure) : Figure :=
  match c with
  | MakeSubplots =>
      {| rows := 2; data := []; shapes := []; annotations := []; layout := None |}
  | AddTrace t row =>
      {| rows := rows fig; data := data fig ++ [(t, row)]; shapes := shapes fig;
         annotations := annotations fig; layout := layout fig |}
  | AddShape s =>
      {| rows := rows fig; data := data fig; shapes := shapes fig ++ [s];
         annotations := annotations fig; layout := layout fig |}
  | AddAnnotation a =>
      {| rows := rows fig; data := data fig; shapes := shapes fig;
         annotations := annotations fig ++ [a]; layout := layout fig |}
  | UpdateLayout l =>
      {| rows := rows fig; data := data fig; shapes := shapes fig;
         annotations := annotations fig; layout := Some l |}
  end.

(** *** Statements on the figure

    A statement runs on the figure bound to [fig]; when it raises, what it
    did to the figure before stays done. *)
Definition Fig (A : Type) : Type := Figure -> result A * Figure.

#[global] Instance fig_ret : MRet Fig := fun _ a fig => (Ok a, fig).
#[global] Instance fig_bind : MBind Fig := fun _ _ f m fig =>
  match m fig with
  | (Ok a, fig') => f a fig'
  | (Raise e, fig') => (Raise e, fig')
  end.

(** An expression that does not touch the figure. *)
Definition lift {A : Type} (r : result A) : Fig A := fun fig => (r, fig).

(** [try: body except Exception as e: handler e] *)
Definition try_fig (body : Fig unit) (handler : exn -> Fig unit) : Fig unit :=
  fun fig =>
    match body fig with
    | (Ok tt, fig') => (Ok tt, fig')
    | (Raise e, fig') => handler e fig'
    end.

(** [for x in xs: body x] *)
Fixpoint for_fig {A : Type} (xs : list A) (body : A -> Fig unit) : Fig unit :=
  match xs with
  | [] => mret tt
  | x :: rest => body x ≫= fun _ => for_fig rest body
  end.

(** [enumerate(xs)] *)
Definition enumerate {A : Type} (xs : list A) : list (nat * A) :=
  zip (seq 0 (length xs)) xs.

(** [levels.items()]: the dictionary is built in the order of the ratio
    keys, which is the order Python iterates it in. *)
Definition items (levels : gmap string num) : list (string * num) :=
  omap (fun key => (fun price => (key, price)) <$> levels !! key)
       (Fibonacci.ratio_keys.*1).

(** The values of the metadata dictionary. *)
Inductive InfoValue : Type :=
| VStr (s : string)
| VNum (q : Q)
| VNone.

Section Composer.

(** Which calls the library refuses, and with which exception: the
    validation of the plotting library is not part of this repository. *)
Variable rejects : Call -> Figure -> option exn.

(** [str(x)] and [f"{x:,.0f}"] on a number. *)
Variable str_number : Q -> string.
Variable format_grouped : Q -> string.

Definition call (c : Call) : Fig unit := fun fig =>
  match rejects c fig with
  | Some e => (Raise e, fig)
  | None => (Ok tt, perform c fig)
  end.

Definition level_line (df : Series) (color : string) (level : Point) : Fig unit :=
  last_date ← lift (iloc_last date df);
  call (AddShape {| x0 := level.1; y0 := Fin level.2;
                    x1 := last_date; y1 := Fin level.2;
                    line_color := color; line_dash := "dash" |}).

Definition fibonacci_line (df : Series) (entry : string * num) : Fig unit :=
  first_date ← lift (iloc date df 0);
  last_date ← lift (iloc_last date df);
  call (AddShape {| x0 := first_date; y0 := entry.2;
                    x1 := last_date; y1 := entry.2;
                    line_color := "purple"; line_dash := "dot" |}) ≫= fun _ =>
  first_date' ← lift (iloc date df 0);
  call (AddAnnotation {| ann_x := AtDate first_date'; ann_y := entry.2;
                         ann_text := "Fib " +:+ entry.1;
                         ann_xanchor := Some "left"; ann_font_size := None |}).

Definition wave_marker (entry : nat * (Point * ExtremumKind)) : Fig unit :=
  let '(i, ((d, price), wave_type)) := entry in
  call (AddTrace
    (Scatter [d] [price] "markers"
       {| symbol := "circle"; size := 8;
          color := if decide (wave_type = KMin) then "blue" else "orange";
          outline := None |}
       [] ("Wave " +:+ pretty (i + 1))) 1).

Definition abc_trace (entry : nat * list Point) : Fig unit :=
  let '(i, pattern) := entry in
  a ← lift (Swing.item pattern 0);
  b ← lift (Swing.item pattern 1);
  c ← lift (Swing.item pattern 2);
  call (AddTrace
    (Scatter [a.1; b.1; c.1] [a.2; b.2; c.2] "lines+markers+text"
       {| symbol := "circle"; size := 10; color := "cyan"; outline := None |}
       ["A"; "B"; "C"] ("ABC Pattern " +:+ pretty (i + 1))) 1).

Definition signal_markers (signals : list Point) (sym col dark name : string)
    : Fig unit :=
  if is_empty signals then mret tt
  else call (AddTrace
    (Scatter (signals.*1) (signals.*2) "markers"
       {| symbol := sym; size := 15; color := col; outline := Some (2, dark) |}
       [] name) 1).

(** The body of the inner [try]: the overlays. *)
Definition indicators (df : Series) : Fig unit :=
  let levels := Scanner.calculate_support_resistance df Scanner.default_window in
  for_fig levels.1 (level_line df "green") ≫= fun _ =>
  for_fig levels.2 (level_line df "red") ≫= fun _ =>
  for_fig (items (Fibonacci.calculate_fibonacci_retracement df))
          (fibonacci_line df) ≫= fun _ =>
  let waves := Swing.identify_elliot_waves df in
  for_fig (enumerate (zip waves.1 waves.2)) wave_marker ≫= fun _ =>
  for_fig (enumerate (Swing.identify_abc_patterns df)) abc_trace ≫= fun _ =>
  let signals := Signals.detect_signal_points df levels.1 levels.2 in
  signal_markers signals.1 "triangle-up" "green" "darkgreen" "Buy Signal" ≫= fun _ =>
  signal_markers signals.2 "triangle-down" "red" "darkred" "Sell Signal".

(** The candlestick trace and the volume bars. *)
Definition candlestick (df : Series) : Trace :=
  Candlestick (date <$> df) (open <$> df) (high <$> df) (low <$> df)
              (close <$> df) "Price".

Definition volume_bars (df : Series) : Trace :=
  Bar (date <$> df) (volume <$> df) "rgba(0, 0, 255, 0.5)" "Volume".

Definition base_chart (df : Series) : Fig unit :=
  call MakeSubplots ≫= fun _ =>
  call (AddTrace (candlestick df) 1) ≫= fun _ =>
  call (AddTrace (volume_bars df) 2).

(** [str(v)] *)
Definition display (v : InfoValue) : string :=
  match v with
  | VStr s => s
  | VNum q => str_number q
  | VNone => "None"
  end.

(** [if v and isinstance(v, (int, float)): v = f"<prefix>{v:,.0f}<suffix>"] *)
Definition grouped (prefix suffix : string) (v : InfoValue) : InfoValue :=
  match v with
  | VNum q => if Qeq_bool q 0 then v
              else VStr (prefix +:+ format_grouped q +:+ suffix)
  | _ => v
  end.

(** [crypto_info.get(key, fallback)]; the metadata is a dictionary, or
    [None], on which [.get] raises. *)
Definition info_get (crypto_info : option (gmap string InfoValue))
    (key : string) (fallback : InfoValue) : result InfoValue :=
  match crypto_info with
  | Some info => Ok (default fallback (info !! key))
  | None => Raise (AttributeError "'NoneType' object has no attribute 'get'")
  end.

Definition chart_layout (ticker : string)
    (crypto_info : option (gmap string InfoValue)) : result Layout :=
  crypto_name ← info_get crypto_info "name" (VStr ticker);
  market_cap ← info_get crypto_info "market_cap" (VStr "N/A");
  let market_cap := grouped "$" "" market_cap in
  circulating_supply ← info_get crypto_info "circulating_supply" (VStr "N/A");
  let circulating_supply := grouped "" " coins" circulating_supply in
  Ok {| title := display crypto_name +:+ " (" +:+ ticker +:+ ") | Market Cap: " +:+
                 display market_cap +:+ " | Supply: " +:+ display circulating_supply;
        xaxis_title := "Date"; yaxis_title := "Price (USD)";
        height := 800; xaxis_rangeslider_visible := false |}.

(** The statements after the overlays: the title and [fig.update_layout]. *)
Definition set_layout (ticker : string)
    (crypto_info : option (gmap string InfoValue)) : Fig unit :=
  chart_layout' ← lift (chart_layout ticker crypto_info);
  call (UpdateLayout chart_layout').

(** The overlays, inside their own [try]: whatever they raise is logged
    and dropped. *)
Definition guarded_indicators (df : Series) (technical_indicators : bool)
    : Fig unit :=
  if technical_indicators
  then try_fig (indicators df) (fun _ => mret tt)
  else mret tt.

(** The body of the outer [try]. *)
Definition chart_body (df : Series) (ticker : string)
    (crypto_info : option (gmap string InfoValue)) (technical_indicators : bool)
    : Fig unit :=
  base_chart df ≫= fun _ =>
  guarded_indicators df technical_indicators ≫= fun _ =>
  set_layout ticker crypto_info.

(** The annotation of the error chart. *)
Definition error_annotation (e : exn) : Annotation :=
  {| ann_x := AtNumber 0.5; ann_y := Fin 0.5;
     ann_text := "Error creating chart: " +:+ exn_message e;
     ann_xanchor := None; ann_font_size := Some 20 |}.

Definition error_figure (e : exn) : Figure :=
  perform (AddAnnotation (error_annotation e)) blank_figure.

(** [create_chart]: the figure the outer [try] built, or, from its
    handler, a fresh figure with the error annotation.  The handler is not
    itself inside a [try]: an exception of its one library call would reach
    the caller. *)
Definition create_chart (df : Series) (ticker : string)
    (crypto_info : option (gmap string InfoValue)) (technical_indicators : bool)
    : result Figure :=
  match chart_body df ticker crypto_info technical_indicators blank_figure with
  | (Ok _, fig) => Ok fig
  | (Raise e, _) =>
      match call (AddAnnotation (error_annotation e)) blank_figure with
      | (Ok _, fig) => Ok fig
      | (Raise e', _) => Raise e'
      end
  end.

End Composer.

End Chart.

(** ** Instrument metadata and top gainers
    ([crypto_data.py], [futures_data.py], [currency_data.py]) *)

Module Market.

(** A metadata dictionary. *)
Abbreviation Info := (gmap string Chart.InfoValue).

Definition POPULAR_CRYPTOS : list string :=
  ["BTC-USD"; "ETH-USD"; "USDT-USD"; "BNB-USD"; "XRP-USD"; "ADA-USD";
   "SOL-USD"; "DOGE-USD"; "DOT-USD"; "SHIB-USD"; "AVAX-USD"; "MATIC-USD";
   "LTC-USD"; "UNI7083-USD"; "LINK-USD"; "ATOM-USD"; "XLM-USD"; "ALGO-USD";
   "MANA-USD"; "AXS-USD"; "TRX-USD"; "NEAR-USD"; "FTM-USD"; "SAND-USD";
   "CRO-USD"; "AAVE-USD"; "XTZ-USD"; "EOS-USD"; "EGLD-USD"; "THETA-USD";
   "ZEC-USD"; "HBAR-USD"; "XMR-USD"; "GRT-USD"; "FIL-USD"; "ICP-USD";
   "VET-USD"; "CAKE-USD"; "ONE-USD"].

Definition POPULAR_FUTURES : list string :=
  ["ES=F"; "NQ=F"; "YM=F"; "RTY=F"; "GC=F"; "SI=F"; "HG=F"; "CL=F"; "NG=F";
   "ZC=F"; "ZS=F"; "ZW=F"; "KC=F"; "SB=F"; "CT=F"; "CC=F"; "ZN=F"; "ZB=F";
   "ZF=F"; "ZT=F"].

Definition POPULAR_CURRENCIES : list string :=
  ["EURUSD=X"; "USDJPY=X"; "GBPUSD=X"; "USDCHF=X"; "AUDUSD=X"; "USDCAD=X";
   "NZDUSD=X"; "EURGBP=X"; "EURJPY=X"; "EURCHF=X"; "GBPJPY=X"; "CHFJPY=X";
   "EURAUD=X"; "GBPCHF=X"; "USDZAR=X"; "USDTRY=X"; "USDMXN=X"; "USDBRL=X";
   "USDRUB=X"; "USDINR=X"].

(** [info.get(key, fallback)] *)
Definition get (info : Info) (key : string) (fallback : Chart.InfoValue)
    : Chart.InfoValue :=
  default fallback (info !! key).

(** The dictionary of the [except] branch of the three [get_..._info]. *)
Definition error_info (name ticker : string) (e : exn) : Info :=
  <["error" := Chart.VStr (exn_message e)]>
  (<["symbol" := Chart.VStr ticker]>
  (<["name" := Chart.VStr name]> ∅)).

Section Provider.

(** [yf.Ticker(ticker).info]: the provider's dictionary, or an exception. *)
Variable provider : string -> result Info.

Definition get_crypto_info (ticker : string) : Info :=
  try_except
    (info ← provider ticker;
     Ok (<["description" :=
            get info "description" (Chart.VStr "No description available")]>
        (<["price_change_24h_pct" :=
            get info "regularMarketChangePercent" Chart.VNone]>
        (<["volume" := get info "regularMarketVolume" Chart.VNone]>
        (<["price" := get info "regularMarketPrice" Chart.VNone]>
        (<["max_supply" := get info "maxSupply" Chart.VNone]>
        (<["total_supply" := get info "totalSupply" Chart.VNone]>
        (<["circulating_supply" := get info "circulatingSupply" Chart.VNone]>
        (<["market_cap" := get info "marketCap" Chart.VNone]>
        (<["symbol" := get info "symbol" (Chart.VStr ticker)]>
        (<["name" := get info "name" (Chart.VStr ticker)]> ∅)))))))))))
    (error_info ticker ticker).

Definition get_futures_info (ticker : string) : Info :=
  try_except
    (info ← provider ticker;
     Ok (<["description" :=
            get info "description" (Chart.VStr "No description available")]>
        (<["price_change_24h_pct" :=
            get info "regularMarketChangePercent" Chart.VNone]>
        (<["volume" := get info "regularMarketVolume" Chart.VNone]>
        (<["price" := get info "regularMarketPrice" Chart.VNone]>
        (<["expiration_date" := get info "expirationDate" Chart.VNone]>
        (<["open_interest" := get info "openInterest" Chart.VNone]>
        (<["market_cap" := get info "marketCap" Chart.VNone]>
        (<["symbol" := get info "symbol" (Chart.VStr ticker)]>
        (<["name" := get info "shortName" (Chart.VStr ticker)]> ∅))))))))))
    (error_info ticker ticker).

(** [c in s] for a character [c]. *)
Fixpoint has_char (c : Ascii.ascii) (s : string) : bool :=
  match s with
  | EmptyString => false
  | String a rest => Ascii.eqb a c || has_char c rest
  end.

(** [s.split(c)[0]]: the part of [s] before the first [c]. *)
Fixpoint before_char (c : Ascii.ascii) (s : string) : string :=
  match s with
  | EmptyString => EmptyString
  | String a rest =>
      if Ascii.eqb a c then EmptyString else String a (before_char c rest)
  end.

(** [s[:n]] and [s[n:]] *)
Fixpoint string_take (n : nat) (s : string) : string :=
  match n, s with
  | S n', String a rest => String a (string_take n' rest)
  | _, _ => EmptyString
  end.

Fixpoint string_drop (n : nat) (s : string) : string :=
  match n, s with
  | S n', String _ rest => string_drop n' rest
  | _, _ => s
  end.

(** The display name of a currency pair. *)
Definition pair_name (ticker : string) : string :=
  if has_char "="%char ticker then
    let base_currency := string_take 3 (before_char "="%char ticker) in
    let quote_currency := string_drop 3 (before_char "="%char ticker) in
    base_currency +:+ "/" +:+ quote_currency
  else ticker.

Definition get_currency_info (ticker : string) : Info :=
  try_except
    (info ← provider ticker;
     Ok (<["description" :=
            get info "description" (Chart.VStr "No description available")]>
        (<["day_range_high" := get info "regularMarketDayHigh" Chart.VNone]>
        (<["day_range_low" := get info "regularMarketDayLow" Chart.VNone]>
        (<["ask" := get info "ask" Chart.VNone]>
        (<["bid" := get info "bid" Chart.VNone]>
        (<["price_change_24h_pct" :=
            get info "regularMarketChangePercent" Chart.VNone]>
        (<["volume" := get info "regularMarketVolume" Chart.VNone]>
        (<["price" := get info "regularMarketPrice" Chart.VNone]>
        (<["symbol" := get info "symbol" (Chart.VStr ticker)]>
        (<["name" := get info "shortName" (Chart.VStr (pair_name ticker))]>
          ∅)))))))))))
    (error_info (pair_name ticker) ticker).

End Provider.

(** An entry of the list the three [get_..._top_gainers] return. *)
Record Gainer : Type := {
  symbol : string;
  name : Chart.InfoValue;
  price_change_pct : Q;
  current_price : Chart.InfoValue
}.

(** [gainers.sort(key=lambda x: x['price_change_pct'], reverse=True)].
    Python's sort is stable, also with [reverse=True]: entries with equal
    keys keep their order.  The sorted list is thereby determined; this
    insertion computes it. *)
Fixpoint insert_desc (g : Gainer) (sorted : list Gainer) : list Gainer :=
  match sorted with
  | [] => [g]
  | h :: rest =>
      if Qle_bool (price_change_pct h) (price_change_pct g)
      then g :: h :: rest
      else h :: insert_desc g rest
  end.

Definition sort_desc (gainers : list Gainer) : list Gainer :=
  foldr insert_desc [] gainers.

Section TopGainers.
Variable popular : list string.
Variable get_info : string -> Info.

(** One iteration of the loop over the popular tickers. *)
Definition gainer_step (threshold : Q) (gainers : list Gainer) (ticker : string)
    : list Gainer :=
  let info := get_info ticker in
  match get info "price_change_24h_pct" (Chart.VNum 0) with
  | Chart.VNum price_change =>
      if Qlt_bool threshold price_change
      then gainers ++ [{| symbol := ticker;
                          name := get info "name" (Chart.VStr ticker);
                          price_change_pct := price_change;
                          current_price := get info "price" (Chart.VNum 0) |}]
      else gainers
  | _ => gainers
  end.

(** The common body of [get_top_gainers], [get_futures_top_gainers] and
    [get_currency_top_gainers]; [limit] is a natural number. *)
Definition top_gainers (threshold : Q) (limit : nat) : list Gainer :=
  take limit (sort_desc (foldl (gainer_step threshold) [] popular)).

End TopGainers.

Definition get_top_gainers (provider : string -> result Info) :=
  top_gainers POPULAR_CRYPTOS (get_crypto_info provider).

Definition get_futures_top_gainers (provider : string -> result Info) :=
  top_gainers POPULAR_FUTURES (get_futures_info provider).

Definition get_currency_top_gainers (provider : string -> result Info) :=
  top_gainers POPULAR_CURRENCIES (get_currency_info provider).

End Market.

(** ** Retry with exponential backoff ([currency_data.py]) *)

Module Retry.

(** [needle in haystack] on strings. *)
Fixpoint contains (needle haystack : string) : bool :=
  String.prefix needle haystack ||
  match haystack with
  | EmptyString => false
  | String _ rest => contains needle rest
  end.

(** ["429" in str(e) or "Too Many Requests" in str(e)] *)
Definition is_rate_limit (e : exn) : bool :=
  contains "429" (exn_message e) || contains "Too Many Requests" (exn_message e).

(** How [fetch_with_retry] ends when it does not return: it raises the
    last exception again, or a [RuntimeError] when there is none. *)
Inductive Failure : Type :=
| Reraised (e : exn)
| RuntimeError (message : string).

Inductive Outcome (A : Type) : Type :=
| Returned (a : A)
| Failed (f : Failure).
Arguments Returned {A} a.
Arguments Failed {A} f.

(** The statements after the loop. *)
Definition after_loop {A : Type} (last_exception : option exn) : Outcome A :=
  match last_exception with
  | Some e => Failed (Reraised e)
  | None => Failed (RuntimeError "Function failed for unknown reason")
  end.

Section FetchWithRetry.
Context {A : Type}.

(** What the call number [k] of [func] does, and the value of
    [random.uniform(0, 0.5)] drawn after it. *)
Variable func : nat -> result A.
Variable jitter : nat -> Q.

(** The loop over [range(max_attempts)]; [slept] lists the arguments of
    [time.sleep] so far. *)
Fixpoint retry_loop (attempts : list nat) (delay : Q)
    (last_exception : option exn) (slept : list Q) : Outcome A * list Q :=
  match attempts with
  | [] => (after_loop last_exception, slept)
  | attempt_count :: rest =>
      match func attempt_count with
      | Ok a => (Returned a, slept)
      | Raise e =>
          if is_rate_limit e
          then retry_loop rest (delay * 2)%Q (Some e)
                 (slept ++ [(delay + jitter attempt_count)%Q])
          else (after_loop (Some e), slept)
      end
  end.

Definition fetch_with_retry (max_attempts : nat) (initial_delay : Q)
    : Outcome A * list Q :=
  retry_loop (range 0 max_attempts) initial_delay None [].

End FetchWithRetry.

End Retry.

(** ** Ticker navigation of the dashboard ([app.py]) *)

Module Navigation.

(** The part of the session state one tab navigates with: the index and the
    search results, each a [{'symbol', 'name'}] pair. *)
Record State : Type := {
  ticker_index : Z;
  search_results : list (string * Chart.InfoValue)
}.

Definition initial : State := {| ticker_index := 0; search_results := [] |}.

(** [xs[i]] for a Python integer [i]: a negative index counts from the
    end. *)
Definition item_at {A : Type} (xs : list A) (i : Z) : result A :=
  let position := if (i <? 0)%Z then (Z.of_nat (length xs) + i)%Z else i in
  if (position <? 0)%Z then Raise (IndexError i)
  else match xs !! Z.to_nat position with
       | Some x => Ok x
       | None => Raise (IndexError i)
       end.

(** [i % len(xs)]; the division by zero raises. *)
Definition modulo_length {A : Type} (i : Z) (xs : list A) : result Z :=
  if is_empty xs then Raise (LibraryError "integer modulo by zero")
  else Ok (i mod Z.of_nat (length xs))%Z.

Section Tab.
Variable popular : list string.

(** [get_current_crypto_ticker] and its two siblings. *)
Definition get_current_ticker (st : State) : result string :=
  if is_empty (search_results st)
  then i ← modulo_length (ticker_index st) popular; item_at popular i
  else entry ← item_at (search_results st) (ticker_index st); Ok entry.1.

(** The search box: results replace the old ones and reset the index;
    no result changes nothing. *)
Definition search (results : list (string * Chart.InfoValue)) (st : State) : State :=
  if is_empty results then st
  else {| ticker_index := 0; search_results := results |}.

(** The Previous and Next buttons move by [step = -1] and [step = 1]. *)
Definition move (step : Z) (st : State) : result State :=
  i ← (if is_empty (search_results st)
       then modulo_length (ticker_index st + step) popular
       else modulo_length (ticker_index st + step) (search_results st));
  Ok {| ticker_index := i; search_results := search_results st |}.

Inductive Button : Type := NoButton | Previous | Next.

(** One run of the controls of a tab: the search box (when it holds a
    query, with the results of the search), then the buttons. *)
Definition run (query : option (list (string * Chart.InfoValue)))
    (button : Button) (st : State) : result State :=
  let st := match query with
            | Some results => search results st
            | None => st
            end in
  match button with
  | NoButton => Ok st
  | Previous => move (-1) st
  | Next => move 1 st
  end.

(** A sequence of runs. *)
Fixpoint runs (inputs : list (option (list (string * Chart.InfoValue)) * Button))
    (st : State) : result State :=
  match inputs with
  | [] => Ok st
  | (query, button) :: rest => st' ← run query button st; runs rest st'
  end.

End Tab.

End Navigation.

(** ** Vocabulary of the specification *)

Module Spec.

(** The value of column [col] at position [i] stands in relation [rel] to
    the value at each of the [window] positions before [i] and after [i]. *)
Definition local_extremum (rel : Q -> Q -> Prop) (col : PricePoint -> Q)
    (df : Series) (window i : nat) : Prop :=
  exists row, df !! i = Some row /\
    forall j other, 1 <= j <= window ->
      df !! (i - j) = Some other \/ df !! (i + j) = Some other ->
      rel (col row) (col other).

Definition local_minimum := local_extremum Qle low.
Definition local_maximum := local_extremum (fun x y => (y <= x)%Q) high.

(** [pt] is the [(timestamp, col)] tuple of the row at position [i]. *)
Definition point_at (col : PricePoint -> Q) (df : Series) (i : nat)
    (pt : Point) : Prop :=
  exists row, df !! i = Some row /\ pt = (date row, col row).

(** [out] lists, in ascending order of position and once each, the points
    of the positions that satisfy [P]. *)
Definition points_of (col : PricePoint -> Q) (df : Series)
    (P : nat -> Prop) (out : list Point) : Prop :=
  exists positions,
    Forall2 (point_at col df) positions out /\
    StronglySorted lt positions /\
    forall i, i ∈ positions <-> P i.

(** [pattern] is the triple of the entries [i], [i+1], [i+2] of the
    swing-point sequence, and their kinds are max, min, max. *)
Definition abc_at (swings : list (Point * ExtremumKind)) (i : nat)
    (pattern : list Point) : Prop :=
  exists a b c,
    swings !! i = Some (a, KMax) /\
    swings !! (i + 1) = Some (b, KMin) /\
    swings !! (i + 2) = Some (c, KMax) /\
    pattern = [a; b; c].

(** The close crosses [level]: strictly below it before, at or above it
    now. *)
Definition crossing (previous_close current_close : Q) (level : Point) : Prop :=
  (previous_close < level.2 /\ level.2 <= current_close)%Q.

(** Some level of [levels] is crossed between positions [i - 1] and [i]. *)
Definition crossed_at (df : Series) (levels : list Point) (i : nat) : Prop :=
  exists previous current level,
    df !! (i - 1) = Some previous /\ df !! i = Some current /\
    level ∈ levels /\ crossing (close previous) (close current) level.

(** [level] is the first level of [levels], in list order, that is
    crossed. *)
Definition first_crossed (previous_close current_close : Q)
    (levels : list Point) (level : Point) : Prop :=
  exists before after,
    levels = before ++ level :: after /\
    crossing previous_close current_close level /\
    forall l, l ∈ before -> ~ crossing previous_close current_close l.

(** The events one position contributes for one level list: the single
    event of the position, which the loop appends on breaking at the first
    crossed level, or no event when no level is crossed. *)
Definition emitted_for (previous current : PricePoint) (levels : list Point)
    (events : list Point) : Prop :=
  (events = [(date current, close current)] /\
   exists level,
     Signals.breaking_level (close previous) (close current) levels = Some level /\
     first_crossed (close previous) (close current) levels level) \/
  (events = [] /\
   forall l, l ∈ levels -> ~ crossing (close previous) (close current) l).

(** [events] are the points of strictly increasing positions: no position
    contributes twice. *)
Definition once_per_position (df : Series) (events : list Point) : Prop :=
  exists positions,
    Forall2 (point_at close df) positions events /\
    StronglySorted lt positions.

(** The claim "a buy (sell) event exists at position [i], [1 <= i <= n-1],
    if and only if a support (resistance) level is crossed there, and it
    carries the timestamp and the close of [i]", at one input. *)
Definition signals_iff_crossings (df : Series)
    (supports resistances : list Point) : Prop :=
  let signals := Signals.detect_signal_points df supports resistances in
  points_of close df
    (fun i => 1 <= i < length df /\ crossed_at df supports i) signals.1 /\
  points_of close df
    (fun i => 1 <= i < length df /\ crossed_at df resistances i) signals.2.

(** [fig] is the base chart of [df]: its first two traces are the
    candlestick of the series, on row 1, and its volume bars, on row 2;
    whatever follows them are overlays. *)
Definition base_chart_of (df : Series) (fig : Chart.Figure) : Prop :=
  exists overlays,
    Chart.data fig =
    [(Chart.candlestick df, 1); (Chart.volume_bars df, 2)] ++ overlays.

(** [fig] is the error placeholder for the exception [e]: no trace, no
    shape, and the single annotation that carries the description of [e]. *)
Definition error_placeholder (e : exn) (fig : Chart.Figure) : Prop :=
  Chart.data fig = [] /\ Chart.shapes fig = [] /\
  exists a, Chart.annotations fig = [a] /\
            Chart.ann_text a = "Error creating chart: " +:+ exn_message e.

(** What [create_chart] owes its caller, whatever the plotting library
    refuses ([rejects]): a figure, never an exception.  When a step of the
    base chart is refused with [e], the figure is the error placeholder for
    [e].  Otherwise the overlays run on the base chart and end normally even
    when one of them raises (the figure they leave still is the base chart,
    with the overlays added so far); the result is that figure with its
    layout set, or the error placeholder when setting the layout raises. *)
Definition composer_contract (rejects : Chart.Call -> Chart.Figure -> option exn)
    (str_number format_grouped : Q -> string) (df : Series) (ticker : string)
    (crypto_info : option (gmap string Chart.InfoValue))
    (technical_indicators : bool) : Prop :=
  exists fig,
    Chart.create_chart rejects str_number format_grouped df ticker crypto_info
      technical_indicators = Ok fig /\
    match Chart.base_chart rejects df Chart.blank_figure with
    | (Raise e, _) => error_placeholder e fig
    | (Ok _, base) =>
        let after := Chart.guarded_indicators rejects df technical_indicators base in
        after.1 = Ok tt /\
        (technical_indicators = true ->
         after.2 = (Chart.indicators rejects df base).2) /\
        base_chart_of df after.2 /\
        match Chart.set_layout rejects str_number format_grouped ticker
                crypto_info after.2 with
        | (Raise e, _) => error_placeholder e fig
        | (Ok _, final) => fig = final /\ base_chart_of df fig
        end
    end.

(** [m] is the greatest (smallest) value of a column. *)
Definition is_maximum (m : Q) (values : list Q) : Prop :=
  m ∈ values /\ forall v, v ∈ values -> (v <= m)%Q.

Definition is_minimum (m : Q) (values : list Q) : Prop :=
  m ∈ values /\ forall v, v ∈ values -> (m <= v)%Q.


(** The level prices in the order of the ratio keys. *)
Definition prices_in_key_order (levels : gmap string num) : list (option num) :=
  (fun key => levels !! key) <$> Fibonacci.ratio_keys.*1.


End Spec.

(** ** Example series *)

Definition bar (d : Z) (h l c : Q) : PricePoint :=
  {| date := d; open := c; high := h; low := l; close := c; volume := 1 |}.

(** Forty bars with [high = 100] and [low = 50] throughout. *)
Definition flat_bars : Series :=
  (fun i => bar (Z.of_nat i) 100 50 75) <$> seq 0 40.

(** Bars given by their closes, at the timestamps 0, 1, 2, ... *)
Definition closes (cs : list Q) : Series :=
  imap (fun i c => bar (Z.of_nat i) c c c) cs.

(** Thirty bars whose [low] falls to 90 at position 15 and rises again,
    with [high] ten above [low]. *)
Definition v_bars : Series :=
  (fun i => let depth := inject_Z (Z.of_nat (Nat.max (i - 15) (15 - i))) in
            bar (Z.of_nat i) (100 + depth) (90 + depth) (95 + depth)) <$> seq 0 30.

(** A bar whose [high] lies below its [low]: the data model expects
    [low <= high] but does not enforce it. *)
Definition crossed_bar : Series := [bar 0 1 5 3].

(** ** Helper definitions of the proofs *)

(** The column value at a position, with [0] out of range. *)
Definition value_at (col : PricePoint -> Q) (df : Series) (i : nat) : Q :=
  default 0%Q (col <$> df !! i).

Definition tuple_at (col : PricePoint -> Q) (df : Series) (i : nat) : Point :=
  (default 0%Z (date <$> df !! i), value_at col df i).

(** The scanner's test as a total boolean function. *)
Definition extremum_b (cmp : Q -> Q -> bool) (col : PricePoint -> Q)
    (df : Series) (window i : nat) : bool :=
  forallb (fun j => cmp (value_at col df i) (value_at col df (i - j)))
          (range 1 (window + 1)) &&
  forallb (fun j => cmp (value_at col df i) (value_at col df (i + j)))
          (range 1 (window + 1)).

(** The entries one iteration of the swing loop appends: the minimum entry
    first, then the maximum entry. *)
Definition swing_entries_at (df : Series) (i : nat) : list (Point * ExtremumKind) :=
  (if extremum_b Qle_bool low df 5 i then [(tuple_at low df i, KMin)] else []) ++
  (if extremum_b Qge_bool high df 5 i then [(tuple_at high df i, KMax)] else []).

Definition extrema_of (entries : list (Point * ExtremumKind)) : Swing.Extrema :=
  {| Swing.extrema_dates := entries.*1.*1;
     Swing.extrema_prices := entries.*1.*2;
     Swing.extrema_types := entries.*2 |}.

(** The pattern test of the ABC loop as a total boolean function. *)
Definition abc_b (swings : list (Point * ExtremumKind)) (i : nat) : bool :=
  match swings !! i, swings !! (i + 1), swings !! (i + 2) with
  | Some (_, KMax), Some (_, KMin), Some (_, KMax) => true
  | _, _, _ => false
  end.

Definition pattern_at (swings : list (Point * ExtremumKind)) (i : nat) : list Point :=
  omap (fun k => fst <$> swings !! k) [i; i + 1; i + 2].

(** The level loop breaks between positions [i - 1] and [i]. *)
Definition crossed_b (df : Series) (levels : list Point) (i : nat) : bool :=
  bool_decide (is_Some (Signals.breaking_level
    (value_at close df (i - 1)) (value_at close df i) levels)).

(** A statement that only ever appends to the traces of the figure. *)
Definition keeps_traces {A : Type} (m : Chart.Fig A) : Prop :=
  forall fig, exists extra, Chart.data (m fig).2 = Chart.data fig ++ extra.

(** A plotting library that accepts every call. *)
Definition accepts_all : Chart.Call -> Chart.Figure -> option exn :=
  fun _ _ => None.

(** A plotting library that refuses candlestick traces. *)
Definition refuses_candlesticks : Chart.Call -> Chart.Figure -> option exn :=
  fun c _ =>
    match c with
    | Chart.AddTrace (Chart.Candlestick _ _ _ _ _ _) _ =>
        Some (LibraryError "invalid candlestick")
    | _ => None
    end.

(** The position and the kind of the entries one iteration of the swing
    loop appends. *)
Definition swing_marks_at (df : Series) (i : nat) : list (nat * ExtremumKind) :=
  (if extremum_b Qle_bool low df 5 i then [(i, KMin)] else []) ++
  (if extremum_b Qge_bool high df 5 i then [(i, KMax)] else []).

(** The column a swing point of a kind takes its price from. *)
Definition swing_column (k : ExtremumKind) : PricePoint -> Q :=
  match k with KMin => low | KMax => high end.

Definition swing_entry (df : Series) (mark : nat * ExtremumKind)
    : Point * ExtremumKind :=
  (tuple_at (swing_column mark.2) df mark.1, mark.2).

(** The order of the merged sequence: by position, and at one position the
    minimum before the maximum. *)
Definition swing_order (a b : nat * ExtremumKind) : Prop :=
  a.1 < b.1 \/ (a.1 = b.1 /\ a.2 = KMin /\ b.2 = KMax).

(** Timestamps that strictly increase along the series. *)
Definition dates_increase (df : Series) : Prop :=
  forall i j earlier later,
    df !! i = Some earlier -> df !! j = Some later -> i < j ->
    (date earlier < date later)%Z.

(** Thirty bars that rise by one at every step. *)
Definition rising_bars : Series :=
  (fun i => let base := inject_Z (Z.of_nat i) in
            bar (Z.of_nat i) (base + 10) base (base + 5)) <$> seq 0 30.

(** Two prices, or two [NaN], that are the same number. *)
Definition num_equiv (a b : num) : Prop :=
  match a, b with
  | Fin x, Fin y => x == y
  | NaN, NaN => True
  | _, _ => False
  end.


(** A plotting library that refuses every shape. *)
Definition refuses_shapes : Chart.Call -> Chart.Figure -> option exn :=
  fun c _ =>
    match c with
    | Chart.AddShape _ => Some (LibraryError "invalid shape")
    | _ => None
    end.

(** The entry one iteration of the gainers loop appends, if any. *)
Definition gainer_of (get_info : string -> Market.Info) (threshold : Q)
    (ticker : string) : option Market.Gainer :=
  let info := get_info ticker in
  match Market.get info "price_change_24h_pct" (Chart.VNum 0) with
  | Chart.VNum price_change =>
      if Qlt_bool threshold price_change
      then Some {| Market.symbol := ticker;
                   Market.name := Market.get info "name" (Chart.VStr ticker);
                   Market.price_change_pct := price_change;
                   Market.current_price := Market.get info "price" (Chart.VNum 0) |}
      else None
  | _ => None
  end.

(** Descending order of the price change. *)
Definition change_desc (a b : Market.Gainer) : Prop :=
  (Market.price_change_pct b <= Market.price_change_pct a)%Q.

(** A provider that fails for every ticker, and one that knows one ticker. *)
Definition offline : string -> result Market.Info :=
  fun _ => Raise (LibraryError "429 Too Many Requests").

Definition only_bitcoin : string -> result Market.Info :=
  fun ticker =>
    if decide (ticker = "BTC-USD")
    then Ok (<["regularMarketChangePercent" := Chart.VNum 5]>
            (<["name" := Chart.VStr "Bitcoin USD"]> ∅))
    else if decide (ticker = "ETH-USD")
    then Ok (<["name" := Chart.VStr "Ethereum USD"]> ∅)
    else Raise (LibraryError "404 Not Found").

(** The call number [k] fails with a rate-limit error. *)
Definition rate_limited {A : Type} (func : nat -> result A) (k : nat) : Prop :=
  exists e, func k = Raise e /\ Retry.is_rate_limit e = true.

(** A function that is rate-limited twice and then answers, and the jitter
    of a quarter of a second. *)
Definition third_time_lucky : nat -> result nat :=
  fun k => if decide (k < 2) then Raise (LibraryError "HTTP 429") else Ok 7.

Definition quarter : nat -> Q := fun _ => 0.25%Q.

(** The index of a tab is a position of the list it navigates: the search
    results if there are any, the popular list otherwise. *)
Definition index_in_range (popular : list string) (st : Navigation.State) : Prop :=
  (0 <= Navigation.ticker_index st <
   Z.of_nat (if is_empty (Navigation.search_results st)
             then length popular
             else length (Navigation.search_results st)))%Z.

(** * Properties *)

(** ** The Python prelude *)

Lemma bind_Ok {A B : Type} (a : A) (f : A -> result B) : (Ok a ≫= f) = f a.
Proof. reflexivity. Qed.

Lemma bind_Raise {A B : Type} (e : exn) (f : A -> result B) :
  (Raise e ≫= f) = Raise e.
Proof. reflexivity. Qed.

Section Prelude.
Context {A S : Type}.

Lemma at_label_Some (col : PricePoint -> A) (df : Series) i row :
  df !! i = Some row -> at_label col df i = Ok (col row).
Proof. intros H. unfold at_label. by rewrite H. Qed.

Lemma iloc_Some (col : PricePoint -> A) (df : Series) i row :
  df !! i = Some row -> iloc col df i = Ok (col row).
Proof. intros H. unfold iloc. by rewrite H. Qed.

Lemma all_of_pure (test : nat -> result bool) (b : nat -> bool) js :
  (forall j, j ∈ js -> test j = Ok (b j)) ->
  all_of test js = Ok (forallb b js).
Proof.
  induction js as [|j js IH]; intros Hpure; [done|].
  cbn. rewrite (Hpure j) by left. cbn.
  destruct (b j); [|done].
  apply IH. intros j' Hj'. apply Hpure. by right.
Qed.

(** A loop whose iterations either append one value or do nothing. *)
Lemma for_each_collect (body : nat -> list A -> result (list A))
    (keep : nat -> bool) (v : nat -> A) positions out :
  (forall i acc, i ∈ positions ->
     body i acc = Ok (if keep i then acc ++ [v i] else acc)) ->
  for_each body positions out =
    Ok (out ++ (v <$> filter (fun i => keep i = true) positions)).
Proof.
  revert out. induction positions as [|i rest IH]; intros out Hbody.
  - cbn. by rewrite app_nil_r.
  - rewrite filter_cons. cbn [for_each].
    rewrite (Hbody i out) by left. rewrite bind_Ok.
    rewrite IH by (intros; apply Hbody; by right).
    destruct (keep i) eqn:Hk.
    + rewrite decide_True by done. by rewrite fmap_cons, <- app_assoc.
    + by rewrite decide_False by done.
Qed.

End Prelude.

Lemma range_elem a b i : i ∈ range a b <-> a <= i < b.
Proof. unfold range. rewrite elem_of_seq. lia. Qed.

Lemma seq_strongly_sorted a n : StronglySorted lt (seq a n).
Proof.
  revert a. induction n as [|n IH]; intros a; cbn; constructor; [apply IH|].
  apply Forall_forall. intros x Hx. apply elem_of_seq in Hx. lia.
Qed.

Lemma filter_strongly_sorted {A} (R : relation A) (P : A -> Prop)
    `{forall x, Decision (P x)} (l : list A) :
  StronglySorted R l -> StronglySorted R (filter P l).
Proof.
  induction 1 as [|x l Hs IH Hx]; [constructor|].
  rewrite filter_cons. case_decide; [|done].
  constructor; [done|].
  apply Forall_forall. intros y Hy. apply list_elem_of_filter in Hy as [_ Hy].
  rewrite Forall_forall in Hx. by apply Hx.
Qed.

Lemma value_at_Some col (df : Series) i row :
  df !! i = Some row -> value_at col df i = col row.
Proof. intros H. unfold value_at. by rewrite H. Qed.

Lemma tuple_at_Some col (df : Series) i row :
  df !! i = Some row -> tuple_at col df i = (date row, col row).
Proof. intros H. unfold tuple_at, value_at. by rewrite H. Qed.

(** ** Extremum scanner *)

Section ScannerFacts.
Variables (cmp : Q -> Q -> bool) (col : PricePoint -> Q).
Variables (df : Series) (window : nat).

Lemma at_label_value i :
  i < length df -> at_label col df i = Ok (value_at col df i).
Proof.
  intros Hi. destruct (lookup_lt_is_Some_2 df i Hi) as [row Hrow].
  by rewrite (at_label_Some _ _ _ _ Hrow), (value_at_Some _ _ _ _ Hrow).
Qed.

Lemma window_test_total (other : nat -> nat) i :
  i < length df ->
  (forall j, 1 <= j <= window -> other j < length df) ->
  all_of (fun j => x ← at_label col df i; y ← at_label col df (other j);
                   Ok (cmp x y)) (range 1 (window + 1)) =
  Ok (forallb (fun j => cmp (value_at col df i) (value_at col df (other j)))
              (range 1 (window + 1))).
Proof.
  intros Hi Hother. apply all_of_pure. intros j Hj%range_elem.
  rewrite (at_label_value i), bind_Ok by done.
  rewrite (at_label_value (other j)), bind_Ok by (apply Hother; lia). done.
Qed.

(** Inside the scanned range every lookup of the test is in range: the
    test raises nothing. *)
Lemma is_extremum_total i :
  window <= i -> i + window < length df ->
  Scanner.is_extremum cmp col df window i = Ok (extremum_b cmp col df window i).
Proof.
  intros Hlo Hhi. unfold Scanner.is_extremum, extremum_b, and_then.
  rewrite (window_test_total (fun j => i - j)) by (intros; lia).
  rewrite (window_test_total (fun j => i + j)) by (intros; lia).
  rewrite bind_Ok. by destruct (forallb _ _).
Qed.

Lemma scan_step_total i out :
  window <= i -> i + window < length df ->
  Scanner.scan_step cmp col df window i out =
    Ok (if extremum_b cmp col df window i then out ++ [tuple_at col df i] else out).
Proof.
  intros Hlo Hhi. unfold Scanner.scan_step.
  rewrite is_extremum_total by done. cbn.
  destruct (extremum_b _ _ _ _ _); [|done].
  destruct (lookup_lt_is_Some_2 df i ltac:(lia)) as [row Hrow].
  rewrite !(at_label_Some _ _ _ _ Hrow), (tuple_at_Some _ _ _ _ Hrow). done.
Qed.

Lemma scan_loop_total :
  for_each (Scanner.scan_step cmp col df window)
           (range window (length df - window)) [] =
  Ok (tuple_at col df <$>
        filter (fun i => extremum_b cmp col df window i = true)
               (range window (length df - window))).
Proof.
  rewrite (for_each_collect _ (extremum_b cmp col df window) (tuple_at col df)).
  - done.
  - intros i acc Hi%range_elem. apply scan_step_total; lia.
Qed.

End ScannerFacts.

Section ScannerSpec.
Variables (cmp : Q -> Q -> bool) (rel : Q -> Q -> Prop).
Hypothesis cmp_rel : forall x y, cmp x y = true <-> rel x y.
Variables (col : PricePoint -> Q) (df : Series) (window : nat).

(** The boolean test decides the specification's notion of extremum. *)
Lemma extremum_b_spec i :
  window <= i -> i + window < length df ->
  extremum_b cmp col df window i = true <->
  Spec.local_extremum rel col df window i.
Proof.
  intros Hlo Hhi. unfold extremum_b, Spec.local_extremum.
  rewrite andb_true_iff, !forallb_forall.
  destruct (lookup_lt_is_Some_2 df i ltac:(lia)) as [row Hrow].
  rewrite (value_at_Some _ _ _ _ Hrow). split.
  - intros [Hbefore Hafter]. exists row. split; [done|].
    intros j other Hj [Hother|Hother].
    + apply cmp_rel. rewrite <- (value_at_Some col _ _ _ Hother).
      apply Hbefore, list_elem_of_In, range_elem. lia.
    + apply cmp_rel. rewrite <- (value_at_Some col _ _ _ Hother).
      apply Hafter, list_elem_of_In, range_elem. lia.
  - intros (row' & Hrow' & Hall). simplify_eq. split.
    + intros j Hj%list_elem_of_In%range_elem.
      destruct (lookup_lt_is_Some_2 df (i - j) ltac:(lia)) as [other Hother].
      rewrite (value_at_Some col _ _ _ Hother). apply cmp_rel.
      apply (Hall j); [lia|by left].
    + intros j Hj%list_elem_of_In%range_elem.
      destruct (lookup_lt_is_Some_2 df (i + j) ltac:(lia)) as [other Hother].
      rewrite (value_at_Some col _ _ _ Hother). apply cmp_rel.
      apply (Hall j); [lia|by right].
Qed.

(** The points a scan collects are those of the extrema of the scanned
    range, in ascending order of position. *)
Lemma scan_points_of :
  Spec.points_of col df
    (fun i => window <= i < length df - window /\
              Spec.local_extremum rel col df window i)
    (tuple_at col df <$>
       filter (fun i => extremum_b cmp col df window i = true)
              (range window (length df - window))).
Proof.
  exists (filter (fun i => extremum_b cmp col df window i = true)
                 (range window (length df - window))).
  split; [|split].
  - apply Forall2_fmap_r, Forall_Forall2_diag, Forall_forall.
    intros i [_ Hi%range_elem]%list_elem_of_filter.
    destruct (lookup_lt_is_Some_2 df i ltac:(lia)) as [row Hrow].
    exists row. split; [done|]. cbn. apply (tuple_at_Some _ _ _ _ Hrow).
  - apply filter_strongly_sorted, seq_strongly_sorted.
  - intros i. rewrite list_elem_of_filter, range_elem. split.
    + intros [Hb Hi]. split; [done|]. apply extremum_b_spec; [lia..|done].
    + intros [Hi Hext]. split; [|done]. apply extremum_b_spec; [lia..|done].
Qed.

End ScannerSpec.

Lemma Qle_bool_rel x y : Qle_bool x y = true <-> (x <= y)%Q.
Proof. apply Qle_bool_iff. Qed.

Lemma Qge_bool_rel x y : Qge_bool x y = true <-> (y <= x)%Q.
Proof. apply Qle_bool_iff. Qed.

Lemma Qlt_bool_rel x y : Qlt_bool x y = true <-> (x < y)%Q.
Proof.
  unfold Qlt_bool. rewrite negb_true_iff, <- not_true_iff_false, Qle_bool_iff.
  split; [apply Qnot_le_lt|apply Qlt_not_le].
Qed.

Lemma support_resistance_total (df : Series) (window : nat) :
  Scanner.support_resistance_body df window =
  Ok (tuple_at low df <$>
        filter (fun i => extremum_b Qle_bool low df window i = true)
               (range window (length df - window)),
      tuple_at high df <$>
        filter (fun i => extremum_b Qge_bool high df window i = true)
               (range window (length df - window))).
Proof.
  unfold Scanner.support_resistance_body.
  by rewrite !scan_loop_total, !bind_Ok.
Qed.

Lemma range_short a b : b <= a -> range a b = [].
Proof. intros H. unfold range. by replace (b - a) with 0 by lia. Qed.

(** C2. For every series and window size, the scan raises nothing and its
    two results list, in ascending order of position, exactly the positions
    [i] of [[window, n - window)] that are a local minimum of [low] (for the
    supports: [low[i]] is [<=] each of the [window] lows before and after,
    ties included) and a local maximum of [high] (for the resistances, with
    [>=]); when [n <= 2 * window] both results are empty. *)
Theorem scanner_classification (df : Series) (window : nat) :
  exists supports resistances,
    Scanner.support_resistance_body df window = Ok (supports, resistances) /\
    Scanner.calculate_support_resistance df window = (supports, resistances) /\
    Spec.points_of low df
      (fun i => window <= i < length df - window /\
                Spec.local_minimum df window i) supports /\
    Spec.points_of high df
      (fun i => window <= i < length df - window /\
                Spec.local_maximum df window i) resistances /\
    (length df <= 2 * window -> supports = [] /\ resistances = []).
Proof.
  eexists _, _. split; [apply support_resistance_total|].
  split; [|split; [|split]].
  - unfold Scanner.calculate_support_resistance.
    by rewrite support_resistance_total.
  - apply scan_points_of, Qle_bool_rel.
  - apply scan_points_of, Qge_bool_rel.
  - intros Hshort. rewrite range_short by lia. done.
Qed.

(** ** Fibonacci calculator *)

Lemma Qmax_cases x y : Qmax x y = x \/ Qmax x y = y.
Proof.
  unfold Qmax, GenericMinMax.gmax. destruct (x ?= y)%Q; auto.
Qed.

Lemma Qmin_cases x y : Qmin x y = x \/ Qmin x y = y.
Proof.
  unfold Qmin, GenericMinMax.gmin. destruct (x ?= y)%Q; auto.
Qed.

Lemma foldl_Qmax_is_maximum v rest :
  Spec.is_maximum (foldl Qmax v rest) (v :: rest).
Proof.
  revert v. induction rest as [|w rest IH]; intros v; cbn.
  - split; [left|]. intros u Hu%list_elem_of_singleton. subst. apply Qle_refl.
  - destruct (IH (Qmax v w)) as [Hin Hub]. split.
    + apply elem_of_cons in Hin as [->|Hin]; [|by do 2 right].
      destruct (Qmax_cases v w) as [->| ->]; [left|right; left].
    + intros u Hu. apply elem_of_cons in Hu as [->|Hu].
      * eapply Qle_trans; [apply Q.le_max_l|]. apply Hub. left.
      * apply elem_of_cons in Hu as [->|Hu].
        -- eapply Qle_trans; [apply Q.le_max_r|]. apply Hub. left.
        -- apply Hub. by right.
Qed.

Lemma foldl_Qmin_is_minimum v rest :
  Spec.is_minimum (foldl Qmin v rest) (v :: rest).
Proof.
  revert v. induction rest as [|w rest IH]; intros v; cbn.
  - split; [left|]. intros u Hu%list_elem_of_singleton. subst. apply Qle_refl.
  - destruct (IH (Qmin v w)) as [Hin Hlb]. split.
    + apply elem_of_cons in Hin as [->|Hin]; [|by do 2 right].
      destruct (Qmin_cases v w) as [->| ->]; [left|right; left].
    + intros u Hu. apply elem_of_cons in Hu as [->|Hu].
      * eapply Qle_trans; [|apply Q.le_min_l]. apply Hlb. left.
      * apply elem_of_cons in Hu as [->|Hu].
        -- eapply Qle_trans; [|apply Q.le_min_r]. apply Hlb. left.
        -- apply Hlb. by right.
Qed.

(** On a series with at least one row both column reductions are finite
    and are the extreme values of their columns. *)
Lemma column_extremes (df : Series) :
  df <> [] ->
  exists highest lowest,
    Fibonacci.column_max (high <$> df) = Fin highest /\
    Fibonacci.column_min (low <$> df) = Fin lowest /\
    Spec.is_maximum highest (high <$> df) /\
    Spec.is_minimum lowest (low <$> df).
Proof.
  destruct df as [|row rest]; [done|]. intros _.
  eexists _, _. cbn. split; [done|]. split; [done|].
  split; [apply foldl_Qmax_is_maximum|apply foldl_Qmin_is_minimum].
Qed.

Lemma is_maximum_unique m m' values :
  Spec.is_maximum m values -> Spec.is_maximum m' values -> m == m'.
Proof.
  intros [Hin Hub] [Hin' Hub']. apply Qle_antisym; auto.
Qed.

Lemma is_minimum_unique m m' values :
  Spec.is_minimum m values -> Spec.is_minimum m' values -> m == m'.
Proof.
  intros [Hin Hlb] [Hin' Hlb']. apply Qle_antisym; auto.
Qed.

(** The dictionary never depends on an exception: it always has the seven
    keys of the source. *)
Lemma fibonacci_dom (df : Series) :
  dom (Fibonacci.calculate_fibonacci_retracement df) =
  list_to_set (Fibonacci.ratio_keys.*1).
Proof.
  unfold Fibonacci.calculate_fibonacci_retracement, Fibonacci.fibonacci_body,
    try_except.
  rewrite !dom_insert_L, dom_empty_L. cbn. set_solver.
Qed.

Ltac fib_lookup :=
  unfold Fibonacci.calculate_fibonacci_retracement, Fibonacci.fibonacci_body,
    try_except;
  repeat (rewrite lookup_insert_ne by (intros [=]));
  rewrite lookup_insert_eq.



(** The level prices, key by key, once both extremes are finite. *)
Lemma fibonacci_prices (df : Series) highest lowest :
  Fibonacci.column_max (high <$> df) = Fin highest ->
  Fibonacci.column_min (low <$> df) = Fin lowest ->
  Spec.prices_in_key_order (Fibonacci.calculate_fibonacci_retracement df) =
  (fun p => Some (Fin p)) <$>
    [highest;
     highest - 0.236 * (highest - lowest);
     highest - 0.382 * (highest - lowest);
     highest - 0.5 * (highest - lowest);
     highest - 0.618 * (highest - lowest);
     highest - 0.786 * (highest - lowest);
     lowest]%Q.
Proof.
  intros Hmax Hmin. unfold Spec.prices_in_key_order. cbn [fmap list_fmap fst Fibonacci.ratio_keys].
  repeat f_equal; fib_lookup; by rewrite ?Hmax, ?Hmin.
Qed.



Lemma fibonacci_prices_empty :
  Spec.prices_in_key_order (Fibonacci.calculate_fibonacci_retracement []) =
  replicate 7 (Some NaN).
Proof.
  unfold Spec.prices_in_key_order.
  cbn [fmap list_fmap fst Fibonacci.ratio_keys replicate].
  repeat f_equal; by fib_lookup.
Qed.



(** ** Swing points and ABC patterns *)

Lemma merged_extrema_of entries : Swing.merged (extrema_of entries) = entries.
Proof. unfold Swing.merged, extrema_of. cbn. by rewrite !zip_fst_snd. Qed.

Lemma append_extremum_of entries d p k :
  Swing.append_extremum d p k (extrema_of entries) =
  extrema_of (entries ++ [((d, p), k)]).
Proof.
  unfold Swing.append_extremum, extrema_of. cbn. by rewrite !fmap_app.
Qed.

Section SwingFacts.
Variable df : Series.

Lemma extrema_step_total i entries :
  5 <= i -> i + 5 < length df ->
  Swing.extrema_step df i (extrema_of entries) =
  Ok (extrema_of (entries ++ swing_entries_at df i)).
Proof.
  intros Hlo Hhi. unfold Swing.extrema_step, swing_entries_at.
  destruct (lookup_lt_is_Some_2 df i ltac:(lia)) as [row Hrow].
  rewrite !is_extremum_total by done.
  rewrite !(at_label_Some _ _ _ _ Hrow), !(tuple_at_Some _ _ _ _ Hrow).
  rewrite bind_Ok.
  destruct (extremum_b Qle_bool low df 5 i),
           (extremum_b Qge_bool high df 5 i);
    rewrite ?bind_Ok, ?append_extremum_of, ?app_nil_r, <- ?app_assoc; done.
Qed.

Lemma extrema_loop_total a b entries :
  5 <= a -> b <= length df - 5 ->
  for_each (Swing.extrema_step df) (range a b) (extrema_of entries) =
  Ok (extrema_of (entries ++ flat_map (swing_entries_at df) (range a b))).
Proof.
  intros Ha Hb.
  assert (Hall : forall i, i ∈ range a b -> 5 <= i /\ i + 5 < length df).
  { intros i Hi%range_elem. lia. }
  revert entries Hall. generalize (range a b) as positions.
  induction positions as [|i rest IH]; intros entries Hall.
  - cbn. by rewrite app_nil_r.
  - cbn [for_each flat_map].
    destruct (Hall i ltac:(left)) as [Hlo Hhi].
    rewrite extrema_step_total, bind_Ok by done.
    rewrite IH by (intros; apply Hall; by right).
    by rewrite app_assoc.
Qed.

Lemma find_extrema_total :
  Swing.find_extrema df =
  Ok (extrema_of (flat_map (swing_entries_at df) (range 5 (length df - 5)))).
Proof.
  unfold Swing.find_extrema.
  change Swing.no_extrema with (extrema_of []).
  by rewrite extrema_loop_total.
Qed.

End SwingFacts.

Section AbcFacts.
Variable swings : list (Point * ExtremumKind).

Lemma item_Some {A} (xs : list A) i x : xs !! i = Some x -> Swing.item xs i = Ok x.
Proof. intros H. unfold Swing.item. by rewrite H. Qed.

Lemma abc_b_spec i :
  abc_b swings i = true <-> exists pattern, Spec.abc_at swings i pattern.
Proof.
  unfold abc_b, Spec.abc_at. split.
  - destruct (swings !! i) as [[a [|]]|] eqn:H0; try done.
    destruct (swings !! (i + 1)) as [[b [|]]|] eqn:H1; try done.
    destruct (swings !! (i + 2)) as [[c [|]]|] eqn:H2; try done.
    intros _. by exists [a; b; c], a, b, c.
  - intros (pattern & a & b & c & -> & -> & -> & _). done.
Qed.

Lemma pattern_at_spec i :
  abc_b swings i = true -> Spec.abc_at swings i (pattern_at swings i).
Proof.
  intros (pattern & a & b & c & H0 & H1 & H2 & _)%abc_b_spec.
  exists a, b, c. unfold pattern_at. cbn. by rewrite H0, H1, H2.
Qed.

(** Inside its range the pattern loop indexes the three lists in range:
    an iteration raises nothing. *)
Lemma abc_step_total i patterns :
  i + 2 < length swings ->
  Swing.abc_step (extrema_of swings) i patterns =
  Ok (if abc_b swings i then patterns ++ [pattern_at swings i] else patterns).
Proof.
  intros Hi.
  destruct (lookup_lt_is_Some_2 swings i ltac:(lia)) as [[[d0 p0] k0] H0].
  destruct (lookup_lt_is_Some_2 swings (i + 1) ltac:(lia)) as [[[d1 p1] k1] H1].
  destruct (lookup_lt_is_Some_2 swings (i + 2) ltac:(lia)) as [[[d2 p2] k2] H2].
  assert (Hitem : forall {A} (f : Point * ExtremumKind -> A) k x,
            swings !! k = Some x -> Swing.item (f <$> swings) k = Ok (f x)).
  { intros A f k x Hk. apply item_Some. by rewrite list_lookup_fmap, Hk. }
  unfold Swing.abc_step, extrema_of, abc_b, pattern_at. cbn [Swing.extrema_types
    Swing.extrema_dates Swing.extrema_prices omap list_omap].
  rewrite H0, H1, H2. cbn [fmap option_fmap option_map fst].
  rewrite (Hitem _ snd _ _ H0), bind_Ok. cbn [snd].
  rewrite <- !list_fmap_compose.
  destruct k0; cbn; [done|].
  rewrite (Hitem _ snd _ _ H1), bind_Ok. cbn [snd].
  destruct k1; cbn; [|done].
  rewrite (Hitem _ snd _ _ H2), bind_Ok. cbn [snd].
  destruct k2; cbn; [done|].
  rewrite (Hitem _ (fst ∘ fst) _ _ H0), (Hitem _ (snd ∘ fst) _ _ H0).
  rewrite (Hitem _ (fst ∘ fst) _ _ H1), (Hitem _ (snd ∘ fst) _ _ H1).
  rewrite (Hitem _ (fst ∘ fst) _ _ H2), (Hitem _ (snd ∘ fst) _ _ H2).
  done.
Qed.

Lemma abc_loop_total :
  for_each (Swing.abc_step (extrema_of swings))
           (range 0 (length (Swing.extrema_types (extrema_of swings)) - 2)) [] =
  Ok (pattern_at swings <$>
        filter (fun i => abc_b swings i = true) (range 0 (length swings - 2))).
Proof.
  cbn [extrema_of Swing.extrema_types]. rewrite length_fmap.
  rewrite (for_each_collect _ (abc_b swings) (pattern_at swings)); [done|].
  intros i acc Hi%range_elem. apply abc_step_total. lia.
Qed.

End AbcFacts.

Lemma abc_body_total (df : Series) :
  Swing.abc_body df =
  Ok (let swings := flat_map (swing_entries_at df) (range 5 (length df - 5)) in
      pattern_at swings <$>
        filter (fun i => abc_b swings i = true) (range 0 (length swings - 2))).
Proof.
  unfold Swing.abc_body. rewrite find_extrema_total, bind_Ok.
  apply abc_loop_total.
Qed.

(** C5. For every series the detector raises nothing, and its patterns are,
    in ascending order of their start [i], exactly the triples of entries
    [i], [i+1], [i+2] of the merged swing-point sequence whose kinds are
    max, min, max: every emitted pattern consists of three consecutive
    swing points of those kinds. *)
Theorem abc_patterns_consecutive (df : Series) :
  exists e starts,
    Swing.find_extrema df = Ok e /\
    Swing.abc_body df = Ok (Swing.identify_abc_patterns df) /\
    Forall2 (Spec.abc_at (Swing.merged e)) starts (Swing.identify_abc_patterns df) /\
    StronglySorted lt starts /\
    (forall i, i ∈ starts <-> exists pattern, Spec.abc_at (Swing.merged e) i pattern).
Proof.
  set (swings := flat_map (swing_entries_at df) (range 5 (length df - 5))).
  exists (extrema_of swings),
    (filter (fun i => abc_b swings i = true) (range 0 (length swings - 2))).
  unfold Swing.identify_abc_patterns.
  rewrite abc_body_total, merged_extrema_of. cbn [try_except]. fold swings.
  split; [apply find_extrema_total|]. split; [done|]. split; [|split].
  - apply Forall2_fmap_r, Forall_Forall2_diag, Forall_forall.
    intros i [Hb _]%list_elem_of_filter. by apply pattern_at_spec.
  - apply filter_strongly_sorted, seq_strongly_sorted.
  - intros i. rewrite list_elem_of_filter, range_elem, abc_b_spec. split.
    + by intros [? _].
    + intros Habc. split; [done|].
      destruct Habc as (pattern & a & b & c & _ & _ & H2%lookup_lt_Some & _).
      lia.
Qed.

Lemma range_split a i b : a <= i < b -> range a b = range a i ++ i :: range (S i) b.
Proof.
  intros Hi. unfold range.
  replace (b - a) with ((i - a) + S (b - S i)) by lia.
  rewrite seq_app. cbn. by replace (a + (i - a)) with i by lia.
Qed.

Section WavesFacts.
Variable df : Series.

Lemma waves_step_total i entries :
  5 <= i -> i + 5 < length df ->
  Swing.waves_step df i (entries.*1, entries.*2) =
  Ok ((entries ++ swing_entries_at df i).*1, (entries ++ swing_entries_at df i).*2).
Proof.
  intros Hlo Hhi. unfold Swing.waves_step, swing_entries_at.
  destruct (lookup_lt_is_Some_2 df i ltac:(lia)) as [row Hrow].
  rewrite !is_extremum_total by done.
  rewrite !(at_label_Some _ _ _ _ Hrow), !(tuple_at_Some _ _ _ _ Hrow).
  rewrite bind_Ok.
  destruct (extremum_b Qle_bool low df 5 i),
           (extremum_b Qge_bool high df 5 i);
    rewrite ?bind_Ok; cbn [fst snd];
    rewrite ?fmap_app, ?app_nil_r, <- ?app_assoc; done.
Qed.

Lemma waves_body_total :
  Swing.waves_body df =
  Ok ((flat_map (swing_entries_at df) (range 5 (length df - 5))).*1,
      (flat_map (swing_entries_at df) (range 5 (length df - 5))).*2).
Proof.
  unfold Swing.waves_body.
  assert (Hall : forall i, i ∈ range 5 (length df - 5) ->
                           5 <= i /\ i + 5 < length df).
  { intros i Hi%range_elem. lia. }
  revert Hall. generalize (range 5 (length df - 5)) as positions.
  intros positions.
  change (@nil Point, @nil ExtremumKind) with
    ((@nil (Point * ExtremumKind)).*1, (@nil (Point * ExtremumKind)).*2).
  rewrite <- (app_nil_l (flat_map _ positions)).
  generalize (@nil (Point * ExtremumKind)) as entries.
  induction positions as [|i rest IH]; intros entries Hall.
  - cbn. by rewrite app_nil_r.
  - cbn [for_each flat_map].
    destruct (Hall i ltac:(left)) as [Hlo Hhi].
    rewrite waves_step_total, bind_Ok by done.
    rewrite IH by (intros; apply Hall; by right).
    by rewrite app_assoc.
Qed.

End WavesFacts.

(** C10. When a position [i] of the scanned range is both a local minimum
    of [low] and a local maximum of [high], the merged swing-point sequence
    is: the entries of the positions before [i], then the min-tagged entry
    of [i], immediately followed by the max-tagged entry of [i], then the
    entries of the positions after [i].  The wave scanner returns the same
    sequence, as its list of points and its list of kinds. *)
Theorem min_entry_before_max_entry (df : Series) (i : nat) (row : PricePoint) :
  df !! i = Some row ->
  5 <= i < length df - 5 ->
  Spec.local_minimum df 5 i ->
  Spec.local_maximum df 5 i ->
  exists before e after,
    for_each (Swing.extrema_step df) (range 5 i) Swing.no_extrema = Ok before /\
    for_each (Swing.extrema_step df) (range (S i) (length df - 5))
             Swing.no_extrema = Ok after /\
    Swing.find_extrema df = Ok e /\
    Swing.merged e =
      Swing.merged before ++
      [((date row, low row), KMin); ((date row, high row), KMax)] ++
      Swing.merged after /\
    Swing.identify_elliot_waves df = ((Swing.merged e).*1, (Swing.merged e).*2).
Proof.
  intros Hrow Hi Hmin Hmax.
  apply (extremum_b_spec _ _ Qle_bool_rel) in Hmin; [|lia..].
  apply (extremum_b_spec _ _ Qge_bool_rel) in Hmax; [|lia..].
  eexists _, _, _.
  change Swing.no_extrema with (extrema_of []).
  split; [apply extrema_loop_total; lia|].
  split; [apply extrema_loop_total; lia|].
  split; [apply find_extrema_total|].
  rewrite !merged_extrema_of. cbn [app]. split.
  - rewrite (range_split 5 i) by lia.
    rewrite flat_map_app. cbn [flat_map]. unfold swing_entries_at at 2.
    rewrite Hmin, Hmax, !(tuple_at_Some _ _ _ _ Hrow). done.
  - unfold Swing.identify_elliot_waves. by rewrite waves_body_total.
Qed.

Lemma min_entry_before_max_entry_flat_bars :
  exists before e after,
    for_each (Swing.extrema_step flat_bars) (range 5 7) Swing.no_extrema = Ok before /\
    for_each (Swing.extrema_step flat_bars) (range 8 (length flat_bars - 5))
             Swing.no_extrema = Ok after /\
    Swing.find_extrema flat_bars = Ok e /\
    Swing.merged e =
      Swing.merged before ++
      [((7%Z, 50%Q), KMin); ((7%Z, 100%Q), KMax)] ++
      Swing.merged after /\
    Swing.identify_elliot_waves flat_bars = ((Swing.merged e).*1, (Swing.merged e).*2).
Proof.
  apply (min_entry_before_max_entry flat_bars 7 (bar 7 100 50 75)).
  - reflexivity.
  - vm_compute. lia.
  - apply (extremum_b_spec _ _ Qle_bool_rel); [vm_compute; lia..|].
    vm_compute. reflexivity.
  - apply (extremum_b_spec _ _ Qge_bool_rel); [vm_compute; lia..|].
    vm_compute. reflexivity.
Defined.

(** On the flat series every scanned position is both a minimum and a
    maximum, so the sequence alternates min, max, min, max, ...; the first
    pattern the ABC scan matches is the max of position 5 with the min and
    the max of position 6. *)
Example abc_on_flat_bars :
  head (Swing.identify_abc_patterns flat_bars) =
  Some [(5%Z, 100%Q); (6%Z, 50%Q); (6%Z, 100%Q)].
Proof. vm_compute. reflexivity. Qed.

(** ** Signal detector *)

Lemma is_empty_nil {A} (xs : list A) : is_empty xs = true <-> xs = [].
Proof. by destruct xs. Qed.

Lemma to_datetime_levels (levels : list Point) :
  (fun l : Point => (Signals.to_datetime l.1, l.2)) <$> levels = levels.
Proof.
  induction levels as [|[d p] rest IH]; [done|]. cbn. by rewrite IH.
Qed.

Section LevelLoop.
Variables previous_close current_close : Q.

Lemma crosses_spec level :
  Signals.crosses previous_close current_close level = true <->
  Spec.crossing previous_close current_close level.
Proof.
  unfold Signals.crosses, Spec.crossing.
  by rewrite andb_true_iff, Qlt_bool_rel, Qge_bool_rel.
Qed.

(** The loop breaks at the first crossed level of the list. *)
Lemma breaking_level_Some levels level :
  Signals.breaking_level previous_close current_close levels = Some level ->
  Spec.first_crossed previous_close current_close levels level.
Proof.
  induction levels as [|l rest IH]; [done|]. cbn.
  destruct (Signals.crosses previous_close current_close l) eqn:Hl.
  - intros [= ->]. exists [], rest. split; [done|].
    split; [by apply crosses_spec|]. intros l' Hl'. by apply elem_of_nil in Hl'.
  - intros (before & after & -> & Hcross & Hfirst)%IH.
    exists (l :: before), after. split; [done|]. split; [done|].
    intros l' [->|Hl']%elem_of_cons; [|by apply Hfirst].
    rewrite <- crosses_spec. by rewrite Hl.
Qed.

Lemma breaking_level_None levels :
  Signals.breaking_level previous_close current_close levels = None ->
  forall l, l ∈ levels -> ~ Spec.crossing previous_close current_close l.
Proof.
  induction levels as [|l rest IH]; intros Hnone l' Hl'.
  - by apply elem_of_nil in Hl'.
  - cbn in Hnone.
    destruct (Signals.crosses previous_close current_close l) eqn:Hl; [done|].
    apply elem_of_cons in Hl' as [->|Hl']; [|by apply IH].
    rewrite <- crosses_spec. by rewrite Hl.
Qed.

Lemma breaking_level_is_Some levels :
  is_Some (Signals.breaking_level previous_close current_close levels) <->
  exists level, level ∈ levels /\ Spec.crossing previous_close current_close level.
Proof.
  split.
  - intros [level (before & after & -> & Hcross & _)%breaking_level_Some].
    exists level. split; [|done]. apply elem_of_app. right. left.
  - intros (level & Hin & Hcross).
    destruct (Signals.breaking_level _ _ levels) eqn:Hb; [done|].
    by destruct (breaking_level_None _ Hb level Hin).
Qed.

End LevelLoop.

Section SignalLoop.
Variables (df : Series) (support_prices resistance_prices : list Point).

(** The events one iteration appends. *)
Lemma signal_step_total i acc previous current :
  df !! (i - 1) = Some previous -> df !! i = Some current ->
  Signals.signal_step df support_prices resistance_prices i acc =
  Ok (acc.1 ++ (if crossed_b df support_prices i
                then [(date current, close current)] else []),
      acc.2 ++ (if crossed_b df resistance_prices i
                then [(date current, close current)] else [])).
Proof.
  intros Hprev Hcur. unfold Signals.signal_step, crossed_b.
  rewrite (iloc_Some close _ _ _ Hcur), bind_Ok.
  rewrite (iloc_Some close _ _ _ Hprev), bind_Ok.
  rewrite (iloc_Some date _ _ _ Hcur), bind_Ok.
  rewrite (value_at_Some close _ _ _ Hprev), (value_at_Some close _ _ _ Hcur).
  do 2 f_equal.
  - destruct (Signals.breaking_level _ _ support_prices).
    + by rewrite bool_decide_eq_true_2.
    + rewrite bool_decide_eq_false_2, app_nil_r; [done|]. by intros [? ?].
  - destruct (Signals.breaking_level _ _ resistance_prices).
    + by rewrite bool_decide_eq_true_2.
    + rewrite bool_decide_eq_false_2, app_nil_r; [done|]. by intros [? ?].
Qed.

Lemma signal_loop_total positions acc :
  (forall i, i ∈ positions -> 1 <= i < length df) ->
  for_each (Signals.signal_step df support_prices resistance_prices) positions acc =
  Ok (acc.1 ++ (tuple_at close df <$>
                  filter (fun i => crossed_b df support_prices i = true) positions),
      acc.2 ++ (tuple_at close df <$>
                  filter (fun i => crossed_b df resistance_prices i = true) positions)).
Proof.
  revert acc. induction positions as [|i rest IH]; intros acc Hrange.
  - cbn. rewrite !app_nil_r. by destruct acc.
  - destruct (Hrange i ltac:(left)) as [Hlo Hhi].
    destruct (lookup_lt_is_Some_2 df (i - 1) ltac:(lia)) as [previous Hprev].
    destruct (lookup_lt_is_Some_2 df i ltac:(lia)) as [current Hcur].
    cbn [for_each].
    rewrite (signal_step_total _ _ _ _ Hprev Hcur), bind_Ok.
    rewrite IH by (intros; apply Hrange; by right).
    rewrite !filter_cons, <- (tuple_at_Some _ _ _ _ Hcur). cbn [fst snd].
    f_equal. f_equal.
    + destruct (crossed_b df support_prices i).
      * rewrite decide_True by done. by rewrite fmap_cons, <- app_assoc.
      * rewrite decide_False by done. by rewrite app_nil_r.
    + destruct (crossed_b df resistance_prices i).
      * rewrite decide_True by done. by rewrite fmap_cons, <- app_assoc.
      * rewrite decide_False by done. by rewrite app_nil_r.
Qed.

End SignalLoop.

Lemma crossed_b_spec (df : Series) levels i :
  1 <= i < length df ->
  crossed_b df levels i = true <-> Spec.crossed_at df levels i.
Proof.
  intros Hi. unfold crossed_b, Spec.crossed_at.
  rewrite bool_decide_eq_true, breaking_level_is_Some.
  destruct (lookup_lt_is_Some_2 df (i - 1) ltac:(lia)) as [previous Hprev].
  destruct (lookup_lt_is_Some_2 df i ltac:(lia)) as [current Hcur].
  rewrite (value_at_Some close _ _ _ Hprev), (value_at_Some close _ _ _ Hcur).
  split.
  - intros (level & Hin & Hcross). by exists previous, current, level.
  - intros (previous' & current' & level & ? & ? & Hin & Hcross).
    simplify_eq. by exists level.
Qed.

(** What the detector returns once both level lists are non-empty. *)
Lemma signals_body_total (df : Series) supports resistances :
  supports <> [] -> resistances <> [] ->
  Signals.signals_body df supports resistances =
  Ok (tuple_at close df <$>
        filter (fun i => crossed_b df supports i = true) (range 1 (length df)),
      tuple_at close df <$>
        filter (fun i => crossed_b df resistances i = true) (range 1 (length df))).
Proof.
  intros Hs Hr. unfold Signals.signals_body. rewrite !to_datetime_levels.
  destruct supports; [done|]. destruct resistances; [done|]. cbn [is_empty orb].
  rewrite signal_loop_total; [done|]. by intros i Hi%range_elem.
Qed.

Lemma signals_body_guard (df : Series) supports resistances :
  supports = [] \/ resistances = [] ->
  Signals.signals_body df supports resistances = Ok ([], []).
Proof.
  intros Hempty. unfold Signals.signals_body. rewrite !to_datetime_levels.
  destruct Hempty as [-> | ->]; [done|]. by rewrite orb_true_r.
Qed.

Lemma signal_points_of (df : Series) levels :
  Spec.points_of close df
    (fun i => 1 <= i < length df /\ Spec.crossed_at df levels i)
    (tuple_at close df <$>
       filter (fun i => crossed_b df levels i = true) (range 1 (length df))).
Proof.
  exists (filter (fun i => crossed_b df levels i = true) (range 1 (length df))).
  split; [|split].
  - apply Forall2_fmap_r, Forall_Forall2_diag, Forall_forall.
    intros i [_ Hi%range_elem]%list_elem_of_filter.
    destruct (lookup_lt_is_Some_2 df i ltac:(lia)) as [row Hrow].
    exists row. split; [done|]. cbn. apply (tuple_at_Some _ _ _ _ Hrow).
  - apply filter_strongly_sorted, seq_strongly_sorted.
  - intros i. rewrite list_elem_of_filter, range_elem. split.
    + intros [Hb Hi]. split; [done|]. by apply crossed_b_spec.
    + intros [Hi Hcross]. split; [|done]. by apply crossed_b_spec.
Qed.

(** C1, as stated, fails when one level list is empty: with the closes
    8, 9, 11, 10, one support at 10 and no resistance, the close crosses the
    support at position 2, yet the detector returns no event at all. *)
Lemma signals_iff_crossings_fails_without_resistance :
  ~ Spec.signals_iff_crossings (closes [8; 9; 11; 10]%Q) [(0%Z, 10%Q)] [].
Proof.
  intros [(positions & Hpoints & _ & Hiff) _].
  cbn in Hpoints. apply Forall2_nil_inv_r in Hpoints. subst positions.
  assert (H2 : 2 ∈ @nil nat); [|by apply elem_of_nil in H2].
  apply Hiff. split; [cbn; lia|].
  exists (bar 1 9 9 9), (bar 2 11 11 11), (0%Z, 10%Q).
  split; [done|]. split; [done|]. split; [left|].
  unfold Spec.crossing. cbn. lra.
Qed.

(** C1, amended. When both level lists are non-empty, a buy event exists at
    position [i], [1 <= i <= n-1], if and only if some support level [s]
    has [close[i-1] < s <= close[i]], and a sell event exists at [i] if and
    only if some resistance level [r] has [close[i-1] < r <= close[i]];
    the event carries the timestamp and the close of position [i], and the
    events are in ascending order of position. *)
Theorem signals_iff_crossings_nonempty (df : Series) (supports resistances : list Point) :
  supports <> [] -> resistances <> [] ->
  Spec.signals_iff_crossings df supports resistances.
Proof.
  intros Hs Hr. unfold Spec.signals_iff_crossings, Signals.detect_signal_points.
  rewrite signals_body_total by done. cbn [try_except fst snd].
  split; apply signal_points_of.
Qed.

Lemma signals_iff_crossings_example :
  Spec.signals_iff_crossings (closes [8; 9; 11; 10]%Q) [(0%Z, 10%Q)] [(0%Z, 100%Q)].
Proof.
  apply (signals_iff_crossings_nonempty (closes [8; 9; 11; 10]%Q));
    discriminate.
Defined.

(** C7. For every series, if the support list or the resistance list is
    empty, the detector returns no buy signal and no sell signal. *)
Theorem no_signals_without_levels (df : Series) (supports resistances : list Point) :
  supports = [] \/ resistances = [] ->
  Signals.signals_body df supports resistances = Ok ([], []) /\
  Signals.detect_signal_points df supports resistances = ([], []).
Proof.
  intros Hempty. unfold Signals.detect_signal_points.
  by rewrite signals_body_guard.
Qed.

Lemma no_signals_without_resistance :
  Signals.signals_body (closes [8; 9; 11; 10]%Q) [(0%Z, 10%Q)] [] = Ok ([], []) /\
  Signals.detect_signal_points (closes [8; 9; 11; 10]%Q) [(0%Z, 10%Q)] [] = ([], []).
Proof.
  apply (no_signals_without_levels (closes [8; 9; 11; 10]%Q) [(0%Z, 10%Q)] []).
  right. reflexivity.
Defined.

Lemma emitted_for_crossed_b (df : Series) levels i previous current :
  df !! (i - 1) = Some previous -> df !! i = Some current ->
  Spec.emitted_for previous current levels
    (if crossed_b df levels i then [(date current, close current)] else []).
Proof.
  intros Hprev Hcur. unfold crossed_b, Spec.emitted_for.
  rewrite (value_at_Some close _ _ _ Hprev), (value_at_Some close _ _ _ Hcur).
  destruct (Signals.breaking_level _ _ levels) as [level|] eqn:Hb.
  - rewrite bool_decide_eq_true_2 by done. left. split; [done|].
    exists level. split; [done|]. by apply breaking_level_Some.
  - rewrite bool_decide_eq_false_2 by (by intros [? ?]). right.
    split; [done|]. by apply breaking_level_None.
Qed.

Lemma points_of_once col (df : Series) P events :
  Spec.points_of col df P events ->
  exists positions,
    Forall2 (Spec.point_at col df) positions events /\ StronglySorted lt positions.
Proof. intros (positions & ? & ? & _). by exists positions. Qed.

Lemma once_per_position_nil (df : Series) : Spec.once_per_position df [].
Proof. exists []. split; constructor. Qed.

(** C6. For every series and level lists, no position contributes more than
    one buy event and more than one sell event to the result.  At a
    position [i] the iteration appends, for the supports, either exactly
    one event, on breaking at the first support in list order with
    [close[i-1] < s <= close[i]] (however many supports are crossed), or no
    event when none is crossed; and independently the same for the
    resistances. *)
Theorem one_signal_per_position (df : Series) (supports resistances : list Point) :
  Spec.once_per_position df (Signals.detect_signal_points df supports resistances).1 /\
  Spec.once_per_position df (Signals.detect_signal_points df supports resistances).2 /\
  forall i acc previous current,
    df !! (i - 1) = Some previous -> df !! i = Some current ->
    exists buys sells,
      Signals.signal_step df supports resistances i acc =
        Ok (acc.1 ++ buys, acc.2 ++ sells) /\
      length buys <= 1 /\ length sells <= 1 /\
      Spec.emitted_for previous current supports buys /\
      Spec.emitted_for previous current resistances sells.
Proof.
  split; [|split].
  - destruct supports as [|s supports'] eqn:Hs;
      [apply once_per_position_nil|].
    destruct resistances as [|r resistances'] eqn:Hr;
      [apply once_per_position_nil|].
    unfold Signals.detect_signal_points.
    rewrite signals_body_total by done. cbn [try_except fst].
    eapply points_of_once, signal_points_of.
  - destruct supports as [|s supports'] eqn:Hs;
      [apply once_per_position_nil|].
    destruct resistances as [|r resistances'] eqn:Hr;
      [apply once_per_position_nil|].
    unfold Signals.detect_signal_points.
    rewrite signals_body_total by done. cbn [try_except snd].
    eapply points_of_once, signal_points_of.
  - intros i acc previous current Hprev Hcur. eexists _, _.
    split; [apply (signal_step_total _ _ _ _ _ _ _ Hprev Hcur)|].
    split; [by destruct (crossed_b df supports i); cbn; lia|].
    split; [by destruct (crossed_b df resistances i); cbn; lia|].
    split; by apply emitted_for_crossed_b.
Qed.

(** With the closes 8, 9, 11, 10, 12 and the supports 10 and 10.5, both
    supports are crossed at position 2; the iteration appends one event. *)
Lemma one_signal_for_two_crossed_supports :
  exists buys sells,
    Signals.signal_step (closes [8; 9; 11; 10; 12]%Q)
      [(0%Z, 10%Q); (1%Z, 10.5%Q)] [(0%Z, 9%Q)] 2 ([], []) =
      Ok ([] ++ buys, [] ++ sells) /\
    length buys <= 1 /\ length sells <= 1 /\
    Spec.emitted_for (bar 1 9 9 9) (bar 2 11 11 11)
      [(0%Z, 10%Q); (1%Z, 10.5%Q)] buys /\
    Spec.emitted_for (bar 1 9 9 9) (bar 2 11 11 11) [(0%Z, 9%Q)] sells.
Proof.
  apply (one_signal_per_position (closes [8; 9; 11; 10; 12]%Q)
           [(0%Z, 10%Q); (1%Z, 10.5%Q)] [(0%Z, 9%Q)]); reflexivity.
Defined.

(** ** Chart composer *)

Section FigStatements.
Context {A B : Type}.

Lemma fig_bind_Ok (m : Chart.Fig A) (f : A -> Chart.Fig B) fig a fig' :
  m fig = (Ok a, fig') -> (m ≫= f) fig = f a fig'.
Proof. intros H. unfold mbind, Chart.fig_bind. by rewrite H. Qed.

Lemma fig_bind_Raise (m : Chart.Fig A) (f : A -> Chart.Fig B) fig e fig' :
  m fig = (Raise e, fig') -> (m ≫= f) fig = (Raise e, fig').
Proof. intros H. unfold mbind, Chart.fig_bind. by rewrite H. Qed.

Lemma keeps_traces_ret (a : A) : keeps_traces (mret a : Chart.Fig A).
Proof. intros fig. exists []. cbn. by rewrite app_nil_r. Qed.

Lemma keeps_traces_lift (r : result A) : keeps_traces (Chart.lift r).
Proof. intros fig. exists []. cbn. by rewrite app_nil_r. Qed.

Lemma keeps_traces_bind (m : Chart.Fig A) (f : A -> Chart.Fig B) :
  keeps_traces m -> (forall a, keeps_traces (f a)) -> keeps_traces (m ≫= f).
Proof.
  intros Hm Hf fig. destruct (Hm fig) as [extra Hextra].
  destruct (m fig) as [[a|e] fig'] eqn:Hrun; cbn in Hextra.
  - rewrite (fig_bind_Ok _ _ _ _ _ Hrun).
    destruct (Hf a fig') as [extra' Hextra'].
    exists (extra ++ extra'). by rewrite Hextra', Hextra, app_assoc.
  - rewrite (fig_bind_Raise _ _ _ _ _ Hrun). by exists extra.
Qed.

End FigStatements.

Section ComposerFacts.
Variable rejects : Chart.Call -> Chart.Figure -> option exn.
Variables str_number format_grouped : Q -> string.

Lemma keeps_traces_call c :
  c <> Chart.MakeSubplots -> keeps_traces (Chart.call rejects c).
Proof.
  intros Hc fig. unfold Chart.call.
  destruct (rejects c fig); cbn; [exists []; by rewrite app_nil_r|].
  destruct c; cbn; [done|by eexists|exists []; by rewrite app_nil_r..].
Qed.

Lemma keeps_traces_for {A} (xs : list A) (body : A -> Chart.Fig unit) :
  (forall x, keeps_traces (body x)) -> keeps_traces (Chart.for_fig xs body).
Proof.
  intros Hbody. induction xs as [|x rest IH]; cbn [Chart.for_fig].
  - apply keeps_traces_ret.
  - apply keeps_traces_bind; [apply Hbody|by intros _].
Qed.

Lemma keeps_traces_try (body : Chart.Fig unit) (handler : exn -> Chart.Fig unit) :
  keeps_traces body -> (forall e, keeps_traces (handler e)) ->
  keeps_traces (Chart.try_fig body handler).
Proof.
  intros Hbody Hhandler fig. unfold Chart.try_fig.
  destruct (Hbody fig) as [extra Hextra].
  destruct (body fig) as [[[]|e] fig'] eqn:Hrun; cbn in Hextra.
  - by exists extra.
  - destruct (Hhandler e fig') as [extra' Hextra'].
    exists (extra ++ extra'). by rewrite Hextra', Hextra, app_assoc.
Qed.

Ltac keeps_traces_step :=
  first
    [ apply keeps_traces_bind; [|intros ?]
    | apply keeps_traces_lift
    | apply keeps_traces_ret
    | apply keeps_traces_call; discriminate
    | apply keeps_traces_for; intros ? ].

(** The overlays only ever add to the figure: they never remove or
    replace a trace. *)
Lemma keeps_traces_indicators (df : Series) :
  keeps_traces (Chart.indicators rejects df).
Proof.
  unfold Chart.indicators. cbn zeta.
  repeat keeps_traces_step.
  - unfold Chart.wave_marker. destruct x as [i [[d price] wave_type]].
    repeat keeps_traces_step.
  - unfold Chart.abc_trace. destruct x as [i pattern].
    repeat keeps_traces_step.
  - unfold Chart.signal_markers. destruct (is_empty _); repeat keeps_traces_step.
  - unfold Chart.signal_markers. destruct (is_empty _); repeat keeps_traces_step.
Qed.

(** The inner [try] ends normally whatever the overlays do. *)
Lemma guarded_indicators_caught (df : Series) technical_indicators fig :
  (Chart.guarded_indicators rejects df technical_indicators fig).1 = Ok tt /\
  (technical_indicators = true ->
   (Chart.guarded_indicators rejects df technical_indicators fig).2 =
   (Chart.indicators rejects df fig).2) /\
  exists extra,
    Chart.data (Chart.guarded_indicators rejects df technical_indicators fig).2 =
    Chart.data fig ++ extra.
Proof.
  unfold Chart.guarded_indicators. destruct technical_indicators.
  - destruct (keeps_traces_indicators df fig) as [extra Hextra].
    unfold Chart.try_fig.
    destruct (Chart.indicators rejects df fig) as [[[]|e] fig'];
      cbn in *; (split; [done|]); (split; [done|]); by exists extra.
  - cbn. split; [done|]. split; [done|]. exists []. by rewrite app_nil_r.
Qed.

(** The traces of the figure once the three calls of the base chart are
    accepted. *)
Lemma base_chart_Ok (df : Series) fig base :
  Chart.base_chart rejects df fig = (Ok tt, base) ->
  Chart.data base = [(Chart.candlestick df, 1); (Chart.volume_bars df, 2)].
Proof.
  unfold Chart.base_chart, mbind, Chart.fig_bind, Chart.call.
  destruct (rejects Chart.MakeSubplots fig); [done|].
  destruct (rejects (Chart.AddTrace (Chart.candlestick df) 1) _); [done|].
  destruct (rejects (Chart.AddTrace (Chart.volume_bars df) 2) _); [done|].
  by intros [= <-].
Qed.

Lemma keeps_traces_set_layout ticker crypto_info :
  keeps_traces (Chart.set_layout rejects str_number format_grouped ticker
                  crypto_info).
Proof. unfold Chart.set_layout. repeat keeps_traces_step. Qed.

Lemma error_figure_placeholder e :
  Spec.error_placeholder e (Chart.error_figure e).
Proof.
  unfold Spec.error_placeholder, Chart.error_figure. cbn.
  split; [done|]. split; [done|]. by eexists.
Qed.

(** The handler of the outer [try] makes one library call, with constant
    arguments and the error text: the library is taken to accept it. *)
Hypothesis placeholder_accepted :
  forall e, rejects (Chart.AddAnnotation (Chart.error_annotation e))
                    Chart.blank_figure = None.

Lemma handler_returns e :
  Chart.call rejects (Chart.AddAnnotation (Chart.error_annotation e))
    Chart.blank_figure = (Ok tt, Chart.error_figure e).
Proof. unfold Chart.call. by rewrite placeholder_accepted. Qed.

(** C8. Whatever the series, the metadata and the calls the plotting
    library refuses (the placeholder annotation apart), [create_chart]
    returns a figure and raises nothing.  An exception raised while the
    overlays are computed is caught, and the chart returned still starts
    with the candlestick and volume traces; a failure of the chart itself
    (a refused base trace or layout) yields the error placeholder: a figure
    whose only content is one annotation with the description of the
    failure. *)
Theorem chart_never_raises (df : Series) (ticker : string)
    (crypto_info : option (gmap string Chart.InfoValue))
    (technical_indicators : bool) :
  Spec.composer_contract rejects str_number format_grouped df ticker
    crypto_info technical_indicators.
Proof.
  unfold Spec.composer_contract, Chart.create_chart, Chart.chart_body.
  destruct (Chart.base_chart rejects df Chart.blank_figure)
    as [[[]|e] base] eqn:Hbase.
  - rewrite (fig_bind_Ok _ _ _ _ _ Hbase). cbn zeta.
    destruct (guarded_indicators_caught df technical_indicators base)
      as (Hcaught & Hsame & extra & Hextra).
    destruct (Chart.guarded_indicators rejects df technical_indicators base)
      as [r after] eqn:Hafter.
    cbn [fst snd] in *. subst r.
    rewrite (fig_bind_Ok _ _ _ _ _ Hafter).
    assert (Hchart : Spec.base_chart_of df after).
    { exists extra. by rewrite Hextra, (base_chart_Ok _ _ _ Hbase). }
    destruct (keeps_traces_set_layout ticker crypto_info after) as [extra' Hextra'].
    destruct (Chart.set_layout _ _ _ _ _ after) as [[[]|e] final].
    + eexists. split; [done|]. do 3 (split; [done|]). split; [done|].
      destruct Hchart as [overlays Hoverlays]. cbn in Hextra'.
      exists (overlays ++ extra'). by rewrite Hextra', Hoverlays.
    + rewrite handler_returns. eexists. split; [done|].
      do 3 (split; [done|]). apply error_figure_placeholder.
  - rewrite (fig_bind_Raise _ _ _ _ _ Hbase), handler_returns.
    eexists. split; [done|]. apply error_figure_placeholder.
Qed.

End ComposerFacts.

(** On the empty series, with a library that accepts every call: the
    Fibonacci overlay raises (there is no first date), the inner [try]
    catches it, and the chart returned is the base chart. *)
Lemma chart_never_raises_empty_series :
  Spec.composer_contract accepts_all (fun _ => "0") (fun _ => "0")
    [] "BTC-USD" (Some ∅) true.
Proof.
  apply (chart_never_raises accepts_all (fun _ => "0") (fun _ => "0")).
  intros e. reflexivity.
Defined.

Example overlays_raise_on_empty_series :
  (Chart.indicators accepts_all []
     (Chart.perform Chart.MakeSubplots Chart.blank_figure)).1 =
  Raise (IndexError 0).
Proof. vm_compute. reflexivity. Qed.

Example chart_of_empty_series :
  exists fig,
    Chart.create_chart accepts_all (fun _ => "0") (fun _ => "0")
      [] "BTC-USD" (Some ∅) true = Ok fig /\
    Chart.data fig = [(Chart.candlestick [], 1); (Chart.volume_bars [], 2)] /\
    Chart.shapes fig = [] /\ Chart.annotations fig = [].
Proof. eexists. vm_compute. repeat split. Qed.

(** A refused candlestick is a failure of the chart itself: the result is
    the error placeholder. *)
Example chart_with_refused_candlestick :
  Chart.create_chart refuses_candlesticks (fun _ => "0") (fun _ => "0")
    flat_bars "BTC-USD" (Some ∅) true =
  Ok (Chart.error_figure (LibraryError "invalid candlestick")).
Proof. vm_compute. reflexivity. Qed.

(** So is metadata that is [None] instead of a dictionary. *)
Example chart_without_metadata :
  Chart.create_chart accepts_all (fun _ => "0") (fun _ => "0")
    flat_bars "BTC-USD" None false =
  Ok (Chart.error_figure
        (AttributeError "'NoneType' object has no attribute 'get'")).
Proof. vm_compute. reflexivity. Qed.

(** ** The scenarios of the specification *)

(** The V-shaped series: one support, at position 15 with price 90, and no
    resistance. *)
Example support_of_v_bars :
  Scanner.calculate_support_resistance v_bars Scanner.default_window =
  ([(15%Z, 90%Q)], []).
Proof. vm_compute. reflexivity. Qed.

(** The flat series: the levels 100, 88.2, 80.9, 75, 69.1, 60.7, 50. *)
Example fibonacci_of_flat_bars :
  Forall2 (fun level price => exists p, level = Some (Fin p) /\ p == price)
    (Spec.prices_in_key_order (Fibonacci.calculate_fibonacci_retracement flat_bars))
    [100; 88.2; 80.9; 75; 69.1; 60.7; 50]%Q.
Proof.
  vm_compute Spec.prices_in_key_order.
  repeat (constructor; [eexists; split; [reflexivity|reflexivity]|]).
  constructor.
Qed.

(** A bar with [high < low]: the levels rise with the ratio, so the
    condition [min(low) <= max(high)] of the monotonicity cannot be
    dropped. *)
Example fibonacci_of_crossed_bar :
  Forall2 (fun level price => exists p, level = Some (Fin p) /\ p == price)
    (Spec.prices_in_key_order (Fibonacci.calculate_fibonacci_retracement crossed_bar))
    [1; 1.944; 2.528; 3; 3.472; 4.144; 5]%Q.
Proof.
  vm_compute Spec.prices_in_key_order.
  repeat (constructor; [eexists; split; [reflexivity|reflexivity]|]).
  constructor.
Qed.

(** The closes 8, 9, 11, 10 with one support at 10 (and a resistance out of
    reach): one buy event, at position 2. *)
Example buy_signal_at_crossing :
  Signals.detect_signal_points (closes [8; 9; 11; 10]%Q)
    [(0%Z, 10%Q)] [(0%Z, 100%Q)] = ([(2%Z, 11%Q)], []).
Proof. vm_compute. reflexivity. Qed.

(** * Further properties of the analysis engine *)

(** ** Swing points against the window-5 scanner *)

Section SwingAgainstScanner.
Variable df : Series.

Lemma swing_entries_min positions :
  (filter (fun e : Point * ExtremumKind => e.2 = KMin)
          (flat_map (swing_entries_at df) positions)).*1 =
  tuple_at low df <$>
    filter (fun i => extremum_b Qle_bool low df 5 i = true) positions.
Proof.
  induction positions as [|i rest IH]; [done|].
  cbn [flat_map]. rewrite filter_app, fmap_app, IH, (filter_cons _ i).
  unfold swing_entries_at.
  destruct (extremum_b Qle_bool low df 5 i),
           (extremum_b Qge_bool high df 5 i); reflexivity.
Qed.

Lemma swing_entries_max positions :
  (filter (fun e : Point * ExtremumKind => e.2 = KMax)
          (flat_map (swing_entries_at df) positions)).*1 =
  tuple_at high df <$>
    filter (fun i => extremum_b Qge_bool high df 5 i = true) positions.
Proof.
  induction positions as [|i rest IH]; [done|].
  cbn [flat_map]. rewrite filter_app, fmap_app, IH, (filter_cons _ i).
  unfold swing_entries_at.
  destruct (extremum_b Qle_bool low df 5 i),
           (extremum_b Qge_bool high df 5 i); reflexivity.
Qed.

Lemma swing_entries_length positions :
  length (flat_map (swing_entries_at df) positions) <= 2 * length positions.
Proof.
  induction positions as [|i rest IH]; [done|].
  cbn [flat_map]. rewrite length_app.
  assert (length (swing_entries_at df i) <= 2).
  { unfold swing_entries_at.
    destruct (extremum_b Qle_bool low df 5 i),
             (extremum_b Qge_bool high df 5 i); cbn; lia. }
  cbn [length]. lia.
Qed.

End SwingAgainstScanner.

Lemma identify_elliot_waves_total (df : Series) :
  Swing.identify_elliot_waves df =
  ((flat_map (swing_entries_at df) (range 5 (length df - 5))).*1,
   (flat_map (swing_entries_at df) (range 5 (length df - 5))).*2).
Proof. unfold Swing.identify_elliot_waves. by rewrite waves_body_total. Qed.

Lemma range_length a b : length (range a b) = b - a.
Proof. unfold range. apply length_seq. Qed.

(** X1. The wave scanner is the support/resistance scanner with window 5:
    its min-tagged points are the supports and its max-tagged points are the
    resistances that [calculate_support_resistance] finds with [window=5],
    in the same order. *)
Theorem waves_are_window5_levels (df : Series) :
  let waves := Swing.identify_elliot_waves df in
  let levels := Scanner.calculate_support_resistance df 5 in
  (filter (fun e : Point * ExtremumKind => e.2 = KMin)
          (zip waves.1 waves.2)).*1 = levels.1 /\
  (filter (fun e : Point * ExtremumKind => e.2 = KMax)
          (zip waves.1 waves.2)).*1 = levels.2.
Proof.
  cbn zeta. rewrite identify_elliot_waves_total. cbn [fst snd].
  rewrite zip_fst_snd.
  unfold Scanner.calculate_support_resistance.
  rewrite support_resistance_total. cbn [try_except fst snd].
  split; [apply swing_entries_min|apply swing_entries_max].
Qed.

(** X2. The two lists the wave scanner returns always have the same
    length, at most two entries per scanned position: [2 * (n - 10)]. *)
Theorem waves_lists_in_step (df : Series) :
  length (Swing.identify_elliot_waves df).1 =
  length (Swing.identify_elliot_waves df).2 /\
  length (Swing.identify_elliot_waves df).1 <= 2 * (length df - 10).
Proof.
  rewrite identify_elliot_waves_total. cbn [fst snd].
  rewrite !length_fmap. split; [done|].
  etrans; [apply swing_entries_length|]. rewrite range_length. lia.
Qed.

(** ** The shape and the number of the ABC patterns *)

Lemma identify_abc_patterns_total (df : Series) :
  Swing.identify_abc_patterns df =
  let swings := flat_map (swing_entries_at df) (range 5 (length df - 5)) in
  pattern_at swings <$>
    filter (fun i => abc_b swings i = true) (range 0 (length swings - 2)).
Proof. unfold Swing.identify_abc_patterns. by rewrite abc_body_total. Qed.

Lemma filter_length_le {A} (P : A -> Prop) `{forall x, Decision (P x)} (l : list A) :
  length (filter P l) <= length l.
Proof.
  induction l as [|x l IH]; [done|].
  rewrite filter_cons. case_decide; cbn; lia.
Qed.


(** X3. Every ABC pattern has exactly three points (so the composer's
    [pattern[0]], [pattern[1]], [pattern[2]] are always in range), there are
    at most [k - 2] patterns for [k] swing points, and a series of at most 11
    rows has none. *)
Theorem abc_patterns_shape (df : Series) :
  Forall (fun pattern => length pattern = 3) (Swing.identify_abc_patterns df) /\
  length (Swing.identify_abc_patterns df) <=
    length (Swing.identify_elliot_waves df).1 - 2 /\
  (length df <= 11 -> Swing.identify_abc_patterns df = []).
Proof.
  rewrite identify_abc_patterns_total, identify_elliot_waves_total.
  cbn zeta. cbn [fst].
  set (swings := flat_map (swing_entries_at df) (range 5 (length df - 5))).
  assert (Hcount : length (pattern_at swings <$>
            filter (fun i => abc_b swings i = true)
                   (range 0 (length swings - 2))) <= length swings - 2).
  { rewrite length_fmap. etrans; [apply filter_length_le|].
    rewrite range_length. lia. }
  split; [|split].
  - apply Forall_fmap, Forall_forall.
    intros i [Hb _]%list_elem_of_filter.
    destruct (pattern_at_spec _ _ Hb) as (a & b & c & _ & _ & _ & Hpattern).
    unfold compose. by rewrite Hpattern.
  - etrans; [exact Hcount|]. by rewrite length_fmap.
  - intros Hshort.
    assert (length swings <= 2).
    { etrans; [apply swing_entries_length|]. rewrite range_length. lia. }
    apply length_zero_iff_nil. lia.
Qed.

(** ** The order of the points of an ABC pattern *)

Lemma StronglySorted_lookup_lt {A} (R : relation A) (l : list A) i j x y :
  StronglySorted R l -> l !! i = Some x -> l !! j = Some y -> i < j -> R x y.
Proof.
  intros Hsorted. revert i j.
  induction Hsorted as [|z l Hsorted IH Hall]; intros i j Hi Hj Hlt; [done|].
  destruct j as [|j]; [lia|]. destruct i as [|i].
  - cbn in Hi, Hj. simplify_eq.
    rewrite Forall_forall in Hall. apply Hall.
    by eapply list_elem_of_lookup_2.
  - cbn in Hi, Hj. apply (IH i j); [done..|lia].
Qed.

Section SwingOrder.
Variable df : Series.

Lemma swing_entries_marks positions :
  flat_map (swing_entries_at df) positions =
  swing_entry df <$> flat_map (swing_marks_at df) positions.
Proof.
  induction positions as [|i rest IH]; [done|].
  cbn [flat_map]. rewrite fmap_app, IH. f_equal.
  unfold swing_entries_at, swing_marks_at.
  by destruct (extremum_b Qle_bool low df 5 i),
              (extremum_b Qge_bool high df 5 i).
Qed.

Lemma swing_marks_position positions mark :
  mark ∈ flat_map (swing_marks_at df) positions -> mark.1 ∈ positions.
Proof.
  induction positions as [|i rest IH]; cbn [flat_map].
  - by intros ?%elem_of_nil.
  - intros [Hhere|Hrest]%elem_of_app; [|right; by apply IH].
    unfold swing_marks_at in Hhere.
    destruct (extremum_b Qle_bool low df 5 i),
             (extremum_b Qge_bool high df 5 i); cbn in Hhere;
      repeat (apply elem_of_cons in Hhere as [->|Hhere]; [left|]);
      by apply elem_of_nil in Hhere.
Qed.

(** The merged sequence is ordered by position, the minimum of a position
    before its maximum. *)
Lemma swing_marks_sorted positions :
  StronglySorted lt positions ->
  StronglySorted swing_order (flat_map (swing_marks_at df) positions).
Proof.
  induction 1 as [|i rest Hsorted IH Hall]; [constructor|].
  cbn [flat_map]. apply StronglySorted_app_2; [| |done].
  - intros a b Ha Hb%swing_marks_position. left.
    rewrite Forall_forall in Hall.
    assert (a.1 = i) as ->; [|by apply Hall].
    unfold swing_marks_at in Ha.
    destruct (extremum_b Qle_bool low df 5 i),
             (extremum_b Qge_bool high df 5 i); cbn in Ha;
      repeat (apply elem_of_cons in Ha as [->|Ha]; [done|]);
      by apply elem_of_nil in Ha.
  - unfold swing_marks_at.
    destruct (extremum_b Qle_bool low df 5 i),
             (extremum_b Qge_bool high df 5 i); cbn.
    + apply SSorted_cons; [apply SSorted_cons; constructor|].
      apply Forall_cons. split; [by right|constructor].
    + apply SSorted_cons; constructor.
    + apply SSorted_cons; constructor.
    + constructor.
Qed.

End SwingOrder.

(** X4. On a series whose timestamps strictly increase, the points A, B, C
    of every ABC pattern satisfy [date A < date B <= date C]: the low B is
    strictly later than the high A, while B and C may be the low and the
    high of one and the same bar. *)
Theorem abc_patterns_chronological (df : Series) :
  dates_increase df ->
  Forall (fun pattern => exists a b c : Point,
            pattern = [a; b; c] /\ (a.1 < b.1 <= c.1)%Z)
         (Swing.identify_abc_patterns df).
Proof.
  intros Hdates. rewrite identify_abc_patterns_total. cbn zeta.
  set (positions := range 5 (length df - 5)).
  rewrite (swing_entries_marks df positions).
  set (marks := flat_map (swing_marks_at df) positions).
  assert (Hsorted : StronglySorted swing_order marks)
    by apply swing_marks_sorted, seq_strongly_sorted.
  assert (Hrow : forall k mark, marks !! k = Some mark ->
            exists row, df !! mark.1 = Some row /\
                        (swing_entry df mark).1.1 = date row).
  { intros k mark Hk.
    assert (Hin : mark.1 ∈ positions).
    { eapply swing_marks_position, list_elem_of_lookup_2, Hk. }
    apply range_elem in Hin.
    destruct (lookup_lt_is_Some_2 df mark.1 ltac:(lia)) as [row Hrow].
    exists row. split; [done|].
    unfold swing_entry. by rewrite (tuple_at_Some _ _ _ _ Hrow). }
  apply Forall_fmap, Forall_forall.
  intros k [Hb _]%list_elem_of_filter.
  destruct (pattern_at_spec _ _ Hb) as (a & b & c & Ha & Hb' & Hc & Hpattern).
  exists a, b, c. split; [by unfold compose|].
  rewrite list_lookup_fmap in Ha, Hb', Hc.
  destruct (marks !! k) as [ma|] eqn:Hma; [|done].
  destruct (marks !! (k + 1)) as [mb|] eqn:Hmb; [|done].
  destruct (marks !! (k + 2)) as [mc|] eqn:Hmc; [|done].
  cbn in Ha, Hb', Hc.
  destruct (Hrow _ _ Hma) as (ra & Hra & Hda).
  destruct (Hrow _ _ Hmb) as (rb & Hrb & Hdb).
  destruct (Hrow _ _ Hmc) as (rc & Hrc & Hdc).
  assert (Hka : ma.2 = KMax) by (unfold swing_entry in Ha; by simplify_eq).
  assert (Hkb : mb.2 = KMin) by (unfold swing_entry in Hb'; by simplify_eq).
  assert (Ea : a.1 = date ra).
  { assert (E : swing_entry df ma = (a, KMax)) by congruence.
    rewrite E in Hda. exact Hda. }
  assert (Eb : b.1 = date rb).
  { assert (E : swing_entry df mb = (b, KMin)) by congruence.
    rewrite E in Hdb. exact Hdb. }
  assert (Ec : c.1 = date rc).
  { assert (E : swing_entry df mc = (c, KMax)) by congruence.
    rewrite E in Hdc. exact Hdc. }
  rewrite Ea, Eb, Ec.
  pose proof (StronglySorted_lookup_lt _ _ k (k + 1) _ _ Hsorted Hma Hmb
                ltac:(lia)) as Hab.
  pose proof (StronglySorted_lookup_lt _ _ (k + 1) (k + 2) _ _ Hsorted Hmb Hmc
                ltac:(lia)) as Hbc.
  split.
  - destruct Hab as [Hlt|(_ & Hmin & _)]; [|congruence].
    by apply (Hdates _ _ _ _ Hra Hrb).
  - destruct Hbc as [Hlt|(Heq & _)].
    + apply Z.lt_le_incl. by apply (Hdates _ _ _ _ Hrb Hrc).
    + rewrite Heq in Hrb. by simplify_eq.
Qed.

Lemma flat_bars_dates_increase : dates_increase flat_bars.
Proof.
  intros i j earlier later Hi Hj Hlt. unfold flat_bars in *.
  rewrite list_lookup_fmap in Hi, Hj.
  destruct (seq 0 40 !! i) as [i'|] eqn:Ei; [|done].
  destruct (seq 0 40 !! j) as [j'|] eqn:Ej; [|done].
  apply lookup_seq in Ei as [-> _]. apply lookup_seq in Ej as [-> _].
  cbn in Hi, Hj. simplify_eq. cbn. lia.
Qed.

Lemma abc_patterns_chronological_flat_bars :
  Forall (fun pattern => exists a b c : Point,
            pattern = [a; b; c] /\ (a.1 < b.1 <= c.1)%Z)
         (Swing.identify_abc_patterns flat_bars).
Proof.
  apply (abc_patterns_chronological flat_bars), flat_bars_dates_increase.
Defined.

(** ** Plateaus and trends under the scanner *)

Lemma filter_all {A} (P : A -> Prop) `{forall x, Decision (P x)} (l : list A) :
  (forall x, x ∈ l -> P x) -> filter P l = l.
Proof.
  induction l as [|x l IH]; intros Hall; [done|].
  rewrite filter_cons, decide_True by (apply Hall; left).
  f_equal. apply IH. intros y Hy. apply Hall. by right.
Qed.

Lemma filter_none {A} (P : A -> Prop) `{forall x, Decision (P x)} (l : list A) :
  (forall x, x ∈ l -> ~ P x) -> filter P l = [].
Proof.
  induction l as [|x l IH]; intros Hnone; [done|].
  rewrite filter_cons, decide_False by (apply Hnone; left).
  apply IH. intros y Hy. apply Hnone. by right.
Qed.

Section Plateau.
Variables (cmp : Q -> Q -> bool) (col : PricePoint -> Q).
Variables (df : Series) (window : nat) (level : Q).
Hypothesis cmp_refl : forall x y, x == y -> cmp x y = true.
Hypothesis constant : forall row, row ∈ df -> col row == level.

Lemma value_at_constant i : i < length df -> value_at col df i == level.
Proof.
  intros Hi. destruct (lookup_lt_is_Some_2 df i Hi) as [row Hrow].
  rewrite (value_at_Some _ _ _ _ Hrow).
  apply constant. by eapply list_elem_of_lookup_2.
Qed.

Lemma plateau_extremum i :
  window <= i -> i + window < length df ->
  extremum_b cmp col df window i = true.
Proof.
  intros Hlo Hhi. unfold extremum_b.
  apply andb_true_iff. split; apply forallb_forall;
    intros j Hj%list_elem_of_In%range_elem; apply cmp_refl;
    rewrite !value_at_constant by lia; reflexivity.
Qed.

Lemma plateau_scan :
  length (filter (fun i => extremum_b cmp col df window i = true)
                 (range window (length df - window))) =
  length df - 2 * window.
Proof.
  rewrite filter_all.
  - rewrite range_length. lia.
  - intros i Hi%range_elem. apply plateau_extremum; lia.
Qed.

End Plateau.

Lemma Qle_bool_equal x y : x == y -> Qle_bool x y = true.
Proof. intros E. apply Qle_bool_iff. rewrite E. apply Qle_refl. Qed.

Lemma Qge_bool_equal x y : x == y -> Qge_bool x y = true.
Proof. intros E. apply Qle_bool_iff. rewrite E. apply Qle_refl. Qed.

(** X5. Ties count: on a series whose [low] column is constant, every
    position of [[window, n - window)] is a support, so the scan returns
    [n - 2 * window] supports; and likewise [n - 2 * window] resistances
    when the [high] column is constant.  Nothing merges the levels of a
    plateau. *)
Theorem plateau_levels (df : Series) (window : nat) :
  (forall level, (forall row, row ∈ df -> low row == level) ->
     length (Scanner.calculate_support_resistance df window).1 =
     length df - 2 * window) /\
  (forall level, (forall row, row ∈ df -> high row == level) ->
     length (Scanner.calculate_support_resistance df window).2 =
     length df - 2 * window).
Proof.
  unfold Scanner.calculate_support_resistance.
  rewrite support_resistance_total. cbn [try_except fst snd].
  split; intros level Hconstant; rewrite length_fmap.
  - apply (plateau_scan _ _ _ _ level Qle_bool_equal Hconstant).
  - apply (plateau_scan _ _ _ _ level Qge_bool_equal Hconstant).
Qed.

Example plateau_levels_flat_bars :
  length (Scanner.calculate_support_resistance flat_bars 10).1 = 20 /\
  length (Scanner.calculate_support_resistance flat_bars 10).2 = 20.
Proof. vm_compute. done. Qed.

Section Trend.
Variables (df : Series) (window : nat).
Hypothesis window_positive : 1 <= window.

(** A test that fails against the neighbour before or after fails. *)
Lemma extremum_b_neighbour cmp col i :
  window <= i ->
  cmp (value_at col df i) (value_at col df (i - 1)) = false \/
  cmp (value_at col df i) (value_at col df (i + 1)) = false ->
  extremum_b cmp col df window i = false.
Proof.
  intros Hi Hfails. unfold extremum_b. apply andb_false_iff.
  destruct Hfails as [Hbefore|Hafter]; [left|right];
    apply not_true_iff_false; intros Hall;
    rewrite forallb_forall in Hall;
    specialize (Hall 1 ltac:(apply list_elem_of_In, range_elem; lia));
    congruence.
Qed.

End Trend.

(** X6. A strict trend has no level: with a window of at least 1, a series
    whose lows strictly rise from bar to bar has no support, and one whose
    highs strictly rise has no resistance. *)
Theorem rising_series_has_no_level (df : Series) (window : nat) :
  1 <= window ->
  (forall i row next, df !! i = Some row -> df !! (S i) = Some next ->
     (low row < low next)%Q /\ (high row < high next)%Q) ->
  Scanner.calculate_support_resistance df window = ([], []).
Proof.
  intros Hwindow Hrises.
  unfold Scanner.calculate_support_resistance.
  rewrite support_resistance_total. cbn [try_except].
  rewrite !filter_none; [done|..].
  - intros i Hi%range_elem.
    rewrite (extremum_b_neighbour df window Hwindow); [done|lia|].
    right.
    destruct (lookup_lt_is_Some_2 df i ltac:(lia)) as [row Hrow].
    destruct (lookup_lt_is_Some_2 df (i + 1) ltac:(lia)) as [next Hnext].
    rewrite (value_at_Some _ _ _ _ Hrow), (value_at_Some _ _ _ _ Hnext).
    replace (i + 1) with (S i) in Hnext by lia.
    destruct (Hrises i row next Hrow Hnext) as [_ Hhigh].
    apply not_true_iff_false. intros Hge%Qge_bool_rel. lra.
  - intros i Hi%range_elem.
    rewrite (extremum_b_neighbour df window Hwindow); [done|lia|].
    left.
    destruct (lookup_lt_is_Some_2 df (i - 1) ltac:(lia)) as [row Hrow].
    destruct (lookup_lt_is_Some_2 df i ltac:(lia)) as [next Hnext].
    rewrite (value_at_Some _ _ _ _ Hrow), (value_at_Some _ _ _ _ Hnext).
    replace i with (S (i - 1)) in Hnext by lia.
    destruct (Hrises (i - 1) row next Hrow Hnext) as [Hlow _].
    apply not_true_iff_false. intros Hle%Qle_bool_rel. lra.
Qed.

Lemma rising_series_has_no_level_example :
  Scanner.calculate_support_resistance rising_bars 10 = ([], []).
Proof.
  apply (rising_series_has_no_level rising_bars 10); [lia|].
  intros i row next Hrow Hnext. unfold rising_bars in *.
  rewrite list_lookup_fmap in Hrow, Hnext.
  destruct (seq 0 30 !! i) as [i'|] eqn:Ei; [|done].
  destruct (seq 0 30 !! S i) as [j'|] eqn:Ej; [|done].
  apply lookup_seq in Ei as [-> _]. apply lookup_seq in Ej as [-> _].
  cbn in Hrow, Hnext. simplify_eq. cbn.
  unfold Qlt. cbn. lia.
Defined.

(** ** Fibonacci levels: range and independence of the order of the rows *)




Lemma is_maximum_Permutation m values values' :
  values ≡ₚ values' -> Spec.is_maximum m values -> Spec.is_maximum m values'.
Proof.
  intros Hperm [Hin Hub]. split; [by rewrite <- Hperm|].
  intros v Hv. apply Hub. by rewrite Hperm.
Qed.

Lemma is_minimum_Permutation m values values' :
  values ≡ₚ values' -> Spec.is_minimum m values -> Spec.is_minimum m values'.
Proof.
  intros Hperm [Hin Hlb]. split; [by rewrite <- Hperm|].
  intros v Hv. apply Hlb. by rewrite Hperm.
Qed.

(** X8. The levels are price levels, not points in time: reordering the
    rows of the series leaves every level the same number. *)
Theorem fibonacci_ignores_row_order (df df' : Series) :
  df ≡ₚ df' ->
  Forall2 (option_Forall2 num_equiv)
    (Spec.prices_in_key_order (Fibonacci.calculate_fibonacci_retracement df))
    (Spec.prices_in_key_order (Fibonacci.calculate_fibonacci_retracement df')).
Proof.
  intros Hperm. destruct df as [|row rest].
  - apply Permutation_nil in Hperm. subst df'.
    rewrite fibonacci_prices_empty. cbn.
    repeat (constructor; [by constructor|]). constructor.
  - assert (Hne' : df' <> []).
    { intros ->. by apply Permutation_nil_r in Hperm. }
    destruct (column_extremes (row :: rest) ltac:(done))
      as (h & l & Hmax & Hmin & Hh & Hl).
    destruct (column_extremes df' Hne') as (h' & l' & Hmax' & Hmin' & Hh' & Hl').
    assert (Eh : h == h').
    { eapply is_maximum_unique; [|exact Hh'].
      eapply is_maximum_Permutation; [|exact Hh]. by apply fmap_Permutation. }
    assert (El : l == l').
    { eapply is_minimum_unique; [|exact Hl'].
      eapply is_minimum_Permutation; [|exact Hl]. by apply fmap_Permutation. }
    rewrite (fibonacci_prices _ h l Hmax Hmin).
    rewrite (fibonacci_prices _ h' l' Hmax' Hmin').
    cbn [fmap list_fmap].
    repeat (constructor; [constructor; cbn; rewrite ?Eh, ?El; reflexivity|]).
    constructor.
Qed.

Lemma fibonacci_ignores_row_order_example :
  Forall2 (option_Forall2 num_equiv)
    (Spec.prices_in_key_order
       (Fibonacci.calculate_fibonacci_retracement [bar 0 9 4 5; bar 1 7 2 6]))
    (Spec.prices_in_key_order
       (Fibonacci.calculate_fibonacci_retracement [bar 1 7 2 6; bar 0 9 4 5])).
Proof.
  apply (fibonacci_ignores_row_order [bar 0 9 4 5; bar 1 7 2 6]
           [bar 1 7 2 6; bar 0 9 4 5]).
  apply perm_swap.
Defined.

(** ** The signal detector: one rule for both lists *)

Lemma detect_signal_points_total (df : Series) supports resistances :
  Signals.detect_signal_points df supports resistances =
  if is_empty supports || is_empty resistances then ([], [])
  else (tuple_at close df <$>
          filter (fun i => crossed_b df supports i = true) (range 1 (length df)),
        tuple_at close df <$>
          filter (fun i => crossed_b df resistances i = true) (range 1 (length df))).
Proof.
  unfold Signals.detect_signal_points.
  destruct supports as [|s supports']; [by rewrite signals_body_guard by auto|].
  destruct resistances as [|r resistances'];
    [by rewrite signals_body_guard by auto|].
  by rewrite signals_body_total.
Qed.

(** X9. The sell rule is the buy rule: exchanging the support list and the
    resistance list exchanges the two results.  A sell signal, like a buy
    signal, marks a close that crosses a level upwards. *)
Theorem signals_swap (df : Series) (supports resistances : list Point) :
  Signals.detect_signal_points df resistances supports =
  ((Signals.detect_signal_points df supports resistances).2,
   (Signals.detect_signal_points df supports resistances).1).
Proof.
  rewrite !detect_signal_points_total, orb_comm.
  by destruct (is_empty supports || is_empty resistances).
Qed.

Lemma crossed_b_rises (df : Series) levels i previous current :
  df !! (i - 1) = Some previous -> df !! i = Some current ->
  crossed_b df levels i = true -> (close previous < close current)%Q.
Proof.
  intros Hprev Hcur. unfold crossed_b.
  rewrite (value_at_Some close _ _ _ Hprev), (value_at_Some close _ _ _ Hcur).
  rewrite bool_decide_eq_true, breaking_level_is_Some.
  intros (level & _ & Hbelow & Hreached). lra.
Qed.

(** X10. No signal without a rising close: on a series whose close never
    rises from one bar to the next, the detector returns no buy and no sell
    signal, whatever the levels. *)
Theorem no_signal_without_rise (df : Series) (supports resistances : list Point) :
  (forall i row next, df !! i = Some row -> df !! (S i) = Some next ->
     (close next <= close row)%Q) ->
  Signals.detect_signal_points df supports resistances = ([], []).
Proof.
  intros Hfalls. rewrite detect_signal_points_total.
  destruct (is_empty supports || is_empty resistances); [done|].
  assert (Hnone : forall levels i, i ∈ range 1 (length df) ->
                    crossed_b df levels i <> true).
  { intros levels i Hi%range_elem Hcrossed.
    destruct (lookup_lt_is_Some_2 df (i - 1) ltac:(lia)) as [row Hrow].
    destruct (lookup_lt_is_Some_2 df i ltac:(lia)) as [next Hnext].
    pose proof (crossed_b_rises _ _ _ _ _ Hrow Hnext Hcrossed) as Hrise.
    replace i with (S (i - 1)) in Hnext by lia.
    pose proof (Hfalls _ _ _ Hrow Hnext). lra. }
  by rewrite !filter_none by auto.
Qed.

Lemma no_signal_without_rise_example :
  Signals.detect_signal_points (closes [12; 10; 10; 7]%Q)
    [(0%Z, 10%Q); (0%Z, 8%Q)] [(0%Z, 11%Q)] = ([], []).
Proof.
  apply (no_signal_without_rise (closes [12; 10; 10; 7]%Q)).
  intros i row next Hrow Hnext.
  do 4 (destruct i as [|i]; [cbn in Hrow, Hnext; simplify_eq; cbn; lra|]).
  done.
Defined.

Lemma crossed_b_same_prices (df : Series) levels levels' i :
  (forall price, price ∈ levels.*2 <-> price ∈ levels'.*2) ->
  crossed_b df levels i = crossed_b df levels' i.
Proof.
  intros Hsame. unfold crossed_b. apply bool_decide_ext.
  rewrite !breaking_level_is_Some.
  assert (Hone : forall ls ls' : list Point,
            (forall price, price ∈ ls.*2 -> price ∈ ls'.*2) ->
            (exists level, level ∈ ls /\
               Spec.crossing (value_at close df (i - 1)) (value_at close df i) level) ->
            exists level, level ∈ ls' /\
               Spec.crossing (value_at close df (i - 1)) (value_at close df i) level).
  { intros ls ls' Hsub (level & Hin & Hcross).
    assert (Hprice : level.2 ∈ ls'.*2)
      by (apply Hsub; by apply list_elem_of_fmap_2).
    apply list_elem_of_fmap in Hprice as (level' & Hprice & Hin').
    exists level'. split; [done|].
    unfold Spec.crossing in *. by rewrite <- Hprice. }
  split; apply Hone; intros price; apply Hsame.
Qed.

Lemma is_empty_same_prices (levels levels' : list Point) :
  (forall price, price ∈ levels.*2 <-> price ∈ levels'.*2) ->
  is_empty levels = is_empty levels'.
Proof.
  intros Hsame.
  destruct levels as [|l levels], levels' as [|l' levels']; [done| | |done].
  - assert (H : l'.2 ∈ (@nil Point).*2) by (apply Hsame; left).
    by apply elem_of_nil in H.
  - assert (H : l.2 ∈ (@nil Point).*2) by (apply Hsame; left).
    by apply elem_of_nil in H.
Qed.

(** X11. Only the set of level prices matters: two support lists with the
    same prices, and two resistance lists with the same prices, give the
    same signals.  The dates of the levels, their order in the list and
    their repetitions have no effect, although the level loop stops at the
    first crossed level. *)
Theorem signals_depend_on_prices (df : Series)
    (supports supports' resistances resistances' : list Point) :
  (forall price, price ∈ supports.*2 <-> price ∈ supports'.*2) ->
  (forall price, price ∈ resistances.*2 <-> price ∈ resistances'.*2) ->
  Signals.detect_signal_points df supports resistances =
  Signals.detect_signal_points df supports' resistances'.
Proof.
  intros Hs Hr. rewrite !detect_signal_points_total.
  rewrite (is_empty_same_prices _ _ Hs), (is_empty_same_prices _ _ Hr).
  destruct (is_empty supports' || is_empty resistances'); [done|].
  f_equal; f_equal; apply list_filter_iff; intros i.
  - by rewrite (crossed_b_same_prices df _ _ i Hs).
  - by rewrite (crossed_b_same_prices df _ _ i Hr).
Qed.

Lemma signals_depend_on_prices_example :
  Signals.detect_signal_points (closes [8; 9; 11; 10; 12]%Q)
    [(0%Z, 10%Q); (1%Z, 10.5%Q)] [(0%Z, 9%Q)] =
  Signals.detect_signal_points (closes [8; 9; 11; 10; 12]%Q)
    [(7%Z, 10.5%Q); (3%Z, 10%Q); (5%Z, 10.5%Q)] [(2%Z, 9%Q); (2%Z, 9%Q)].
Proof.
  apply (signals_depend_on_prices (closes [8; 9; 11; 10; 12]%Q));
    intros price; cbn; rewrite !elem_of_cons, !elem_of_nil; tauto.
Defined.

(** ** The composer with a library that accepts every call *)

Section Draws.









End Draws.

Lemma iloc_last_Ok {A} (col : PricePoint -> A) (df : Series) :
  df <> [] -> exists row, iloc_last col df = Ok (col row).
Proof.
  intros Hne. unfold iloc_last.
  destruct (last df) as [row|] eqn:Hlast; [by exists row|].
  by apply last_None in Hlast.
Qed.

Lemma iloc_first_Ok {A} (col : PricePoint -> A) (df : Series) :
  df <> [] -> exists row, iloc col df 0 = Ok (col row).
Proof. destruct df as [|row rest]; [done|]. intros _. by exists row. Qed.

Lemma fibonacci_items_length (df : Series) :
  length (Chart.items (Fibonacci.calculate_fibonacci_retracement df)) = 7.
Proof.
  unfold Chart.items. cbn [fmap list_fmap fst Fibonacci.ratio_keys omap list_omap].
  repeat (match goal with
          | |- context [?m !! ?k] =>
              let H := fresh in
              assert (H : is_Some (m !! k));
              [apply elem_of_dom; rewrite fibonacci_dom; cbn; set_solver|];
              destruct H as [? ->]
          end).
  reflexivity.
Qed.



Section AcceptingLibrary.
Variable df : Series.
Hypothesis df_nonempty : df <> [].







End AcceptingLibrary.



(** On the flat series: 20 + 20 + 7 lines, and 2 + 60 + 29 traces. *)
Example chart_of_flat_bars :
  exists fig,
    Chart.create_chart accepts_all (fun _ => "0") (fun _ => "0") flat_bars
      "BTC-USD" (Some ∅) true = Ok fig /\
    length (Chart.shapes fig) = 47 /\ length (Chart.annotations fig) = 7 /\
    length (Chart.data fig) = 91.
Proof. eexists. split; [vm_compute; reflexivity|]. vm_compute. done. Qed.

(** ** One refused overlay stops all the later ones *)

Section RefusedShapes.
Variable rejects : Chart.Call -> Chart.Figure -> option exn.
Hypothesis shapes_refused :
  forall s fig, is_Some (rejects (Chart.AddShape s) fig).
Variable df : Series.
Hypothesis df_nonempty : df <> [].

Lemma level_line_refused color level fig :
  exists e, Chart.level_line rejects df color level fig = (Raise e, fig).
Proof.
  unfold Chart.level_line.
  destruct (iloc_last_Ok date df df_nonempty) as [row Hrow].
  rewrite Hrow. unfold mbind, Chart.fig_bind, Chart.lift, Chart.call.
  destruct (shapes_refused
              {| Chart.x0 := level.1; Chart.y0 := Fin level.2;
                 Chart.x1 := date row; Chart.y1 := Fin level.2;
                 Chart.line_color := color; Chart.line_dash := "dash" |} fig)
    as [e ->].
  by exists e.
Qed.

Lemma fibonacci_line_refused entry fig :
  exists e, Chart.fibonacci_line rejects df entry fig = (Raise e, fig).
Proof.
  unfold Chart.fibonacci_line.
  destruct (iloc_last_Ok date df df_nonempty) as [last_row Hlast].
  destruct (iloc_first_Ok date df df_nonempty) as [first_row Hfirst].
  rewrite Hlast, Hfirst. unfold mbind, Chart.fig_bind, Chart.lift, Chart.call.
  destruct (shapes_refused
              {| Chart.x0 := date first_row; Chart.y0 := entry.2;
                 Chart.x1 := date last_row; Chart.y1 := entry.2;
                 Chart.line_color := "purple"; Chart.line_dash := "dot" |} fig)
    as [e ->].
  by exists e.
Qed.

Lemma for_fig_first_raises {A} (xs : list A) (body : A -> Chart.Fig unit) fig :
  xs <> [] ->
  (forall x, exists e, body x fig = (Raise e, fig)) ->
  exists e, Chart.for_fig xs body fig = (Raise e, fig).
Proof.
  destruct xs as [|x rest]; [done|]. intros _ Hbody.
  destruct (Hbody x) as [e He]. exists e. cbn [Chart.for_fig].
  by rewrite (fig_bind_Raise _ _ _ _ _ He).
Qed.

Lemma indicators_refused fig :
  exists e, Chart.indicators rejects df fig = (Raise e, fig).
Proof.
  unfold Chart.indicators. cbn zeta.
  destruct (Scanner.calculate_support_resistance df Scanner.default_window).1
    as [|support supports] eqn:Hsupports.
  2:{ destruct (for_fig_first_raises (support :: supports)
                  (Chart.level_line rejects df "green") fig ltac:(done)
                  (fun x => level_line_refused "green" x fig)) as [e He].
      exists e. by rewrite (fig_bind_Raise _ _ _ _ _ He). }
  erewrite fig_bind_Ok by reflexivity.
  destruct (Scanner.calculate_support_resistance df Scanner.default_window).2
    as [|resistance resistances] eqn:Hresistances.
  2:{ destruct (for_fig_first_raises (resistance :: resistances)
                  (Chart.level_line rejects df "red") fig ltac:(done)
                  (fun x => level_line_refused "red" x fig)) as [e He].
      exists e. by rewrite (fig_bind_Raise _ _ _ _ _ He). }
  erewrite fig_bind_Ok by reflexivity.
  destruct (for_fig_first_raises
              (Chart.items (Fibonacci.calculate_fibonacci_retracement df))
              (Chart.fibonacci_line rejects df) fig) as [e He].
  - intros Hnil. pose proof (fibonacci_items_length df) as Hlen.
    by rewrite Hnil in Hlen.
  - intros x. apply fibonacci_line_refused.
  - exists e. by rewrite (fig_bind_Raise _ _ _ _ _ He).
Qed.

End RefusedShapes.

(** X13. The overlays share one [try]: on a non-empty series, a library
    that refuses every shape leaves the figure without any overlay.  The
    first refused line ends the whole block, so the swing markers, the ABC
    patterns and the signal markers, which need no shape, are not drawn
    either; the exception is caught and the chart is the base chart. *)
Theorem refused_shapes_drop_all_overlays
    (rejects : Chart.Call -> Chart.Figure -> option exn) (df : Series)
    (fig : Chart.Figure) :
  (forall s fig', is_Some (rejects (Chart.AddShape s) fig')) ->
  df <> [] ->
  (exists e, Chart.indicators rejects df fig = (Raise e, fig)) /\
  Chart.guarded_indicators rejects df true fig = (Ok tt, fig).
Proof.
  intros Hrefused Hne.
  destruct (indicators_refused rejects Hrefused df Hne fig) as [e He].
  split; [by exists e|].
  unfold Chart.guarded_indicators, Chart.try_fig. by rewrite He.
Qed.

Lemma refused_shapes_drop_all_overlays_flat_bars :
  (exists e, Chart.indicators refuses_shapes flat_bars Chart.blank_figure =
             (Raise e, Chart.blank_figure)) /\
  Chart.guarded_indicators refuses_shapes flat_bars true Chart.blank_figure =
    (Ok tt, Chart.blank_figure).
Proof.
  apply (refused_shapes_drop_all_overlays refuses_shapes flat_bars).
  - intros s fig'. by eexists.
  - vm_compute. discriminate.
Defined.

(** The chart of the flat series with such a library: the two base traces
    only, although 60 swing markers and 29 patterns were found. *)
Example chart_with_refused_shapes :
  exists fig,
    Chart.create_chart refuses_shapes (fun _ => "0") (fun _ => "0") flat_bars
      "BTC-USD" (Some ∅) true = Ok fig /\
    Chart.data fig =
      [(Chart.candlestick flat_bars, 1); (Chart.volume_bars flat_bars, 2)] /\
    Chart.shapes fig = [] /\ Chart.annotations fig = [].
Proof. eexists. split; [vm_compute; reflexivity|]. cbn. done. Qed.

(** * The data layer *)

(** ** Sorting the gainers *)

Section SortDesc.
Import Market.

Lemma insert_desc_Permutation g sorted : insert_desc g sorted ≡ₚ g :: sorted.
Proof.
  induction sorted as [|h rest IH]; [done|]. cbn.
  destruct (Qle_bool _ _); [done|].
  rewrite IH. apply perm_swap.
Qed.

Lemma sort_desc_Permutation gainers : sort_desc gainers ≡ₚ gainers.
Proof.
  induction gainers as [|g rest IH]; [done|]. cbn.
  by rewrite insert_desc_Permutation, IH.
Qed.

Lemma insert_desc_sorted g sorted :
  StronglySorted change_desc sorted ->
  StronglySorted change_desc (insert_desc g sorted).
Proof.
  induction 1 as [|h rest Hsorted IH Hall]; cbn.
  - repeat constructor.
  - destruct (Qle_bool (price_change_pct h) (price_change_pct g)) eqn:Hle.
    + apply Qle_bool_iff in Hle.
      constructor; [by constructor|].
      constructor; [done|].
      eapply Forall_impl; [exact Hall|].
      intros x Hx. unfold change_desc in *.
      eapply Qle_trans; [exact Hx|exact Hle].
    + constructor; [done|].
      rewrite insert_desc_Permutation. constructor; [|done].
      unfold change_desc.
      apply Qlt_le_weak, Qnot_le_lt. intros Hle'.
      apply Qle_bool_iff in Hle'. congruence.
Qed.

Lemma sort_desc_sorted gainers : StronglySorted change_desc (sort_desc gainers).
Proof.
  induction gainers as [|g rest IH]; [constructor|].
  cbn. by apply insert_desc_sorted.
Qed.

(** The sort is stable: the entries with one price change keep their
    order. *)
Lemma insert_desc_stable q g sorted :
  filter (fun x => Qeq_bool (price_change_pct x) q = true) (insert_desc g sorted) =
  filter (fun x => Qeq_bool (price_change_pct x) q = true) (g :: sorted).
Proof.
  induction sorted as [|h rest IH]; [done|]. cbn [insert_desc].
  destruct (Qle_bool (price_change_pct h) (price_change_pct g)) eqn:Hle; [done|].
  rewrite (filter_cons _ h), IH, !(filter_cons _ g), !(filter_cons _ h).
  destruct (decide (Qeq_bool (price_change_pct g) q = true)) as [Hg|Hg];
    [|done].
  destruct (decide (Qeq_bool (price_change_pct h) q = true)) as [Hh|Hh];
    [|done].
  apply Qeq_bool_iff in Hg, Hh.
  assert (Hle' : Qle_bool (price_change_pct h) (price_change_pct g) = true).
  { apply Qle_bool_iff. rewrite Hg, Hh. apply Qle_refl. }
  congruence.
Qed.

Lemma sort_desc_stable q gainers :
  filter (fun x => Qeq_bool (price_change_pct x) q = true) (sort_desc gainers) =
  filter (fun x => Qeq_bool (price_change_pct x) q = true) gainers.
Proof.
  induction gainers as [|g rest IH]; [done|]. cbn [sort_desc foldr].
  rewrite insert_desc_stable, !(filter_cons _ g).
  fold (sort_desc rest). by rewrite IH.
Qed.

End SortDesc.

(** ** Top gainers *)

Section TopGainersFacts.
Import Market.
Variables (popular : list string) (get_info : string -> Info).
Variable threshold : Q.

Lemma gainers_collected acc tickers :
  foldl (gainer_step get_info threshold) acc tickers =
  acc ++ omap (gainer_of get_info threshold) tickers.
Proof.
  revert acc. induction tickers as [|ticker rest IH]; intros acc.
  - by rewrite app_nil_r.
  - cbn [foldl omap list_omap]. rewrite IH.
    unfold gainer_step, gainer_of. cbn zeta.
    destruct (get (get_info ticker) "price_change_24h_pct" (Chart.VNum 0));
      [done| |done].
    destruct (Qlt_bool threshold q); [|done].
    by rewrite <- app_assoc.
Qed.

Lemma top_gainers_unfold limit :
  top_gainers popular get_info threshold limit =
  take limit (sort_desc (omap (gainer_of get_info threshold) popular)).
Proof. unfold top_gainers. by rewrite gainers_collected. Qed.

Lemma gainer_of_Some ticker g :
  gainer_of get_info threshold ticker = Some g ->
  symbol g = ticker /\
  (threshold < price_change_pct g)%Q /\
  get (get_info ticker) "price_change_24h_pct" (Chart.VNum 0) =
    Chart.VNum (price_change_pct g) /\
  name g = get (get_info ticker) "name" (Chart.VStr ticker) /\
  current_price g = get (get_info ticker) "price" (Chart.VNum 0).
Proof.
  unfold gainer_of. cbn zeta.
  destruct (get (get_info ticker) "price_change_24h_pct" (Chart.VNum 0))
    as [|change|]; [done| |done].
  destruct (Qlt_bool threshold change) eqn:Hlt; [|done].
  intros [= <-]. cbn. by apply Qlt_bool_rel in Hlt.
Qed.

Lemma collected_elem g :
  g ∈ omap (gainer_of get_info threshold) popular <->
  exists ticker, ticker ∈ popular /\ gainer_of get_info threshold ticker = Some g.
Proof. apply list_elem_of_omap. Qed.

Lemma top_gainers_elem limit g :
  g ∈ top_gainers popular get_info threshold limit ->
  exists ticker, ticker ∈ popular /\ gainer_of get_info threshold ticker = Some g.
Proof.
  rewrite top_gainers_unfold. intros Hin.
  apply collected_elem. rewrite <- sort_desc_Permutation.
  eapply elem_of_sublist; [exact Hin|apply sublist_take].
Qed.

Lemma collected_symbols_NoDup tickers :
  NoDup tickers ->
  NoDup (symbol <$> omap (gainer_of get_info threshold) tickers).
Proof.
  induction 1 as [|ticker rest Hnotin Hnodup IH]; [constructor|].
  cbn [omap list_omap].
  destruct (gainer_of get_info threshold ticker) as [g|] eqn:Hg; [|done].
  cbn. constructor; [|done].
  intros (g' & Hsym & Hin)%list_elem_of_fmap.
  apply list_elem_of_omap in Hin as (ticker' & Hin' & Hg').
  apply gainer_of_Some in Hg as [Hs _], Hg' as [Hs' _].
  congruence.
Qed.

End TopGainersFacts.

(** X14. The result of [get_top_gainers] (and of its futures and currency
    siblings) has at most [limit] entries, in descending order of price
    change.  Every entry is a ticker of the popular list whose metadata
    holds a numeric change above the threshold, with the name and price of
    that metadata; no ticker is listed twice when the popular list has no
    repetition. *)
Theorem top_gainers_sound (popular : list string)
    (get_info : string -> Market.Info) (threshold : Q) (limit : nat) :
  let gainers := Market.top_gainers popular get_info threshold limit in
  length gainers <= limit /\
  StronglySorted change_desc gainers /\
  Forall (fun g =>
            Market.symbol g ∈ popular /\
            (threshold < Market.price_change_pct g)%Q /\
            Market.get (get_info (Market.symbol g)) "price_change_24h_pct"
              (Chart.VNum 0) = Chart.VNum (Market.price_change_pct g) /\
            Market.name g =
              Market.get (get_info (Market.symbol g)) "name"
                (Chart.VStr (Market.symbol g)) /\
            Market.current_price g =
              Market.get (get_info (Market.symbol g)) "price" (Chart.VNum 0))
         gainers /\
  (NoDup popular -> NoDup (Market.symbol <$> gainers)).
Proof.
  cbn zeta. split; [|split; [|split]].
  - unfold Market.top_gainers. rewrite length_take. lia.
  - rewrite top_gainers_unfold.
    eapply StronglySorted_app_1_l. rewrite take_drop. apply sort_desc_sorted.
  - apply Forall_forall. intros g (ticker & Hin & Hg)%top_gainers_elem.
    apply gainer_of_Some in Hg as (<- & ? & ? & ? & ?). done.
  - intros Hnodup. rewrite top_gainers_unfold.
    rewrite fmap_take. eapply sublist_NoDup; [|apply sublist_take].
    rewrite sort_desc_Permutation. by apply collected_symbols_NoDup.
Qed.

(** X15. The result is a top list: a popular ticker whose metadata holds a
    numeric change above the threshold is either listed, or the list is full
    ([limit] entries) and every listed entry has at least that change. *)
Theorem top_gainers_complete (popular : list string)
    (get_info : string -> Market.Info) (threshold : Q) (limit : nat)
    (ticker : string) (change : Q) :
  ticker ∈ popular ->
  Market.get (get_info ticker) "price_change_24h_pct" (Chart.VNum 0) =
    Chart.VNum change ->
  (threshold < change)%Q ->
  let gainers := Market.top_gainers popular get_info threshold limit in
  (exists g, g ∈ gainers /\ Market.symbol g = ticker /\
             Market.price_change_pct g = change) \/
  (length gainers = limit /\
   Forall (fun g => (change <= Market.price_change_pct g)%Q) gainers).
Proof.
  intros Hin Hchange Hlt. cbn zeta. rewrite top_gainers_unfold.
  set (collected := omap (gainer_of get_info threshold) popular).
  assert (Hg : exists g, gainer_of get_info threshold ticker = Some g /\
                         Market.symbol g = ticker /\
                         Market.price_change_pct g = change).
  { unfold gainer_of. cbn zeta. rewrite Hchange.
    apply Qlt_bool_rel in Hlt. rewrite Hlt. by eexists. }
  destruct Hg as (g & Hg & Hsym & Hch).
  assert (Hsorted : g ∈ Market.sort_desc collected).
  { rewrite sort_desc_Permutation. apply list_elem_of_omap. eauto. }
  rewrite <- (take_drop limit (Market.sort_desc collected)) in Hsorted.
  apply elem_of_app in Hsorted as [Htake|Hdrop]; [left; eauto|right].
  split.
  - rewrite length_take. apply Nat.min_l.
    destruct (decide (limit <= length (Market.sort_desc collected)));
      [done|].
    rewrite drop_ge in Hdrop by lia. by apply elem_of_nil in Hdrop.
  - apply Forall_forall. intros g' Hg'.
    pose proof (sort_desc_sorted collected) as Hs.
    rewrite <- (take_drop limit (Market.sort_desc collected)) in Hs.
    pose proof (StronglySorted_app_1_elem_of _ _ _ _ _ Hs Hg' Hdrop) as Hord.
    unfold change_desc in Hord. by rewrite <- Hch.
Qed.

Lemma top_gainers_complete_example :
  let gainers :=
    Market.top_gainers Market.POPULAR_CRYPTOS (Market.get_crypto_info only_bitcoin)
      3 20 in
  (exists g, g ∈ gainers /\ Market.symbol g = "BTC-USD" /\
             Market.price_change_pct g = 5%Q) \/
  (length gainers = 20 /\
   Forall (fun g => (5 <= Market.price_change_pct g)%Q) gainers).
Proof.
  apply (top_gainers_complete Market.POPULAR_CRYPTOS
           (Market.get_crypto_info only_bitcoin) 3 20 "BTC-USD" 5).
  - left.
  - vm_compute. reflexivity.
  - reflexivity.
Defined.

(** ** Tickers whose metadata is missing *)

Lemma omap_length_le {A B} (f : A -> option B) (l : list A) :
  length (omap f l) <= length l.
Proof.
  induction l as [|x l IH]; [done|]. cbn. destruct (f x); cbn; lia.
Qed.

Section MissingMetadata.
Import Market.
Variables (popular : list string) (get_info : string -> Info).
Variables (threshold : Q) (limit : nat).

Lemma not_listed ticker :
  gainer_of get_info threshold ticker = None ->
  ticker ∉ (symbol <$> top_gainers popular get_info threshold limit).
Proof.
  intros Hnone (g & -> & Hin)%list_elem_of_fmap.
  apply top_gainers_elem in Hin as (ticker & _ & Hg).
  pose proof (gainer_of_Some _ _ _ _ Hg) as [<- _]. congruence.
Qed.

Lemma listed ticker g :
  ticker ∈ popular -> length popular <= limit ->
  gainer_of get_info threshold ticker = Some g ->
  g ∈ top_gainers popular get_info threshold limit.
Proof.
  intros Hin Hlimit Hg. rewrite top_gainers_unfold.
  assert (Hlen : length (sort_desc (omap (gainer_of get_info threshold) popular))
                 <= length popular).
  { rewrite sort_desc_Permutation. apply omap_length_le. }
  rewrite take_ge by lia.
  rewrite sort_desc_Permutation. apply list_elem_of_omap. eauto.
Qed.

End MissingMetadata.

Lemma error_info_change name ticker e :
  Market.get (Market.error_info name ticker e) "price_change_24h_pct"
    (Chart.VNum 0) = Chart.VNum 0.
Proof. reflexivity. Qed.

Lemma error_info_name name ticker e :
  Market.get (Market.error_info name ticker e) "name" (Chart.VStr ticker) =
  Chart.VStr name.
Proof. reflexivity. Qed.

Lemma error_info_price name ticker e :
  Market.get (Market.error_info name ticker e) "price" (Chart.VNum 0) =
  Chart.VNum 0.
Proof. reflexivity. Qed.

Lemma gainer_of_error_info get_info threshold name ticker e :
  get_info ticker = Market.error_info name ticker e ->
  gainer_of get_info threshold ticker =
  if Qlt_bool threshold 0
  then Some {| Market.symbol := ticker; Market.name := Chart.VStr name;
               Market.price_change_pct := 0; Market.current_price := Chart.VNum 0 |}
  else None.
Proof.
  intros Hinfo. unfold gainer_of. cbn zeta.
  by rewrite Hinfo, error_info_change, error_info_name, error_info_price.
Qed.

Lemma Qlt_bool_false_ge x y : (y <= x)%Q -> Qlt_bool x y = false.
Proof.
  intros Hle. apply not_true_iff_false. intros Hlt%Qlt_bool_rel. lra.
Qed.

(** X16. A ticker whose metadata lookup raised counts as a ticker with a
    change of 0: the error dictionary has no change, and the loop reads an
    absent change as 0.  With a threshold of 0 or more it is therefore never
    listed by any of the three functions; with a negative threshold (and a
    limit that does not cut the list) [get_top_gainers] lists it, with the
    change 0, its ticker as name and the price 0. *)
Theorem failed_lookup_counts_as_zero (provider : string -> result Market.Info)
    (threshold : Q) (limit : nat) (ticker : string) (e : exn) :
  provider ticker = Raise e ->
  ((0 <= threshold)%Q ->
   (ticker ∉ (Market.symbol <$> Market.get_top_gainers provider threshold limit)) /\
   (ticker ∉ (Market.symbol <$>
               Market.get_futures_top_gainers provider threshold limit)) /\
   (ticker ∉ (Market.symbol <$>
               Market.get_currency_top_gainers provider threshold limit))) /\
  ((threshold < 0)%Q -> ticker ∈ Market.POPULAR_CRYPTOS ->
   length Market.POPULAR_CRYPTOS <= limit ->
   {| Market.symbol := ticker; Market.name := Chart.VStr ticker;
      Market.price_change_pct := 0; Market.current_price := Chart.VNum 0 |}
   ∈ Market.get_top_gainers provider threshold limit).
Proof.
  intros Hfail.
  assert (Hcrypto : Market.get_crypto_info provider ticker =
                    Market.error_info ticker ticker e).
  { unfold Market.get_crypto_info. by rewrite Hfail. }
  assert (Hfutures : Market.get_futures_info provider ticker =
                     Market.error_info ticker ticker e).
  { unfold Market.get_futures_info. by rewrite Hfail. }
  assert (Hcurrency : Market.get_currency_info provider ticker =
                      Market.error_info (Market.pair_name ticker) ticker e).
  { unfold Market.get_currency_info. by rewrite Hfail. }
  split.
  - intros Hthreshold.
    pose proof (Qlt_bool_false_ge _ _ Hthreshold) as Hlt.
    split; [|split]; apply not_listed;
      erewrite gainer_of_error_info by eassumption; by rewrite Hlt.
  - intros Hthreshold Hin Hlimit. eapply listed; [exact Hin|exact Hlimit|].
    erewrite gainer_of_error_info by eassumption.
    apply Qlt_bool_rel in Hthreshold. by rewrite Hthreshold.
Qed.

Lemma failed_lookup_counts_as_zero_offline :
  ((0 <= -1)%Q ->
   ("BTC-USD" ∉ (Market.symbol <$> Market.get_top_gainers offline (-1) 50)) /\
   ("BTC-USD" ∉ (Market.symbol <$> Market.get_futures_top_gainers offline (-1) 50)) /\
   ("BTC-USD" ∉ (Market.symbol <$> Market.get_currency_top_gainers offline (-1) 50))) /\
  ((-1 < 0)%Q -> "BTC-USD" ∈ Market.POPULAR_CRYPTOS ->
   length Market.POPULAR_CRYPTOS <= 50 ->
   {| Market.symbol := "BTC-USD"; Market.name := Chart.VStr "BTC-USD";
      Market.price_change_pct := 0; Market.current_price := Chart.VNum 0 |}
   ∈ Market.get_top_gainers offline (-1) 50).
Proof.
  apply (failed_lookup_counts_as_zero offline (-1) 50 "BTC-USD"
           (LibraryError "429 Too Many Requests")).
  reflexivity.
Defined.

(** With every lookup failing and the threshold -1, all 39 popular tickers
    are "gainers"; the limit keeps the first 20 of the list. *)
Example gainers_when_offline :
  Market.symbol <$> Market.get_top_gainers offline (-1) 20 =
  take 20 Market.POPULAR_CRYPTOS.
Proof. vm_compute. reflexivity. Qed.

(** X17. A ticker whose metadata was returned without the field
    [regularMarketChangePercent] is never listed, whatever the threshold:
    its change is [None], not absent. *)
Theorem missing_change_is_never_listed (provider : string -> result Market.Info)
    (threshold : Q) (limit : nat) (ticker : string) (info : Market.Info) :
  provider ticker = Ok info ->
  info !! "regularMarketChangePercent" = None ->
  (ticker ∉ (Market.symbol <$> Market.get_top_gainers provider threshold limit)) /\
  (ticker ∉ (Market.symbol <$>
              Market.get_futures_top_gainers provider threshold limit)) /\
  (ticker ∉ (Market.symbol <$>
              Market.get_currency_top_gainers provider threshold limit)).
Proof.
  intros Hinfo Hmissing.
  split; [|split]; apply not_listed; unfold gainer_of; cbn zeta.
  - unfold Market.get_crypto_info. rewrite Hinfo. cbn [mbind result_bind try_except].
    unfold Market.get at 1.
    rewrite lookup_insert_ne, lookup_insert_eq by done. cbn.
    unfold Market.get. by rewrite Hmissing.
  - unfold Market.get_futures_info. rewrite Hinfo. cbn [mbind result_bind try_except].
    unfold Market.get at 1.
    rewrite lookup_insert_ne, lookup_insert_eq by done. cbn.
    unfold Market.get. by rewrite Hmissing.
  - unfold Market.get_currency_info. rewrite Hinfo. cbn [mbind result_bind try_except].
    unfold Market.get at 1.
    do 5 (rewrite lookup_insert_ne by done). rewrite lookup_insert_eq. cbn.
    unfold Market.get. by rewrite Hmissing.
Qed.

Lemma missing_change_is_never_listed_example :
  ("ETH-USD" ∉ (Market.symbol <$> Market.get_top_gainers only_bitcoin (-1) 50)) /\
  ("ETH-USD" ∉ (Market.symbol <$>
                 Market.get_futures_top_gainers only_bitcoin (-1) 50)) /\
  ("ETH-USD" ∉ (Market.symbol <$>
                 Market.get_currency_top_gainers only_bitcoin (-1) 50)).
Proof.
  apply (missing_change_is_never_listed only_bitcoin (-1) 50 "ETH-USD"
           (<["name" := Chart.VStr "Ethereum USD"]> ∅)); reflexivity.
Defined.

(** ** Retry with exponential backoff *)

Section RetryFacts.
Context {A : Type}.
Variables (func : nat -> result A) (jitter : nat -> Q).



(** The loop up to the first call that is not rate-limited. *)
Lemma retry_loop_returns k : forall n a delay last_exception slept x,
  k < n ->
  (forall j, j < k -> rate_limited func (a + j)) ->
  func (a + k) = Ok x ->
  exists slept',
    Retry.retry_loop func jitter (seq a n) delay last_exception slept =
      (Retry.Returned x, slept') /\
    length slept' = length slept + k.
Proof.
  induction k as [|k IH]; intros n a delay last_exception slept x Hk Hbefore Hcall.
  - destruct n as [|n]; [lia|]. cbn [seq Retry.retry_loop].
    rewrite Nat.add_0_r in Hcall. rewrite Hcall. exists slept. split; [done|lia].
  - destruct n as [|n]; [lia|]. cbn [seq Retry.retry_loop].
    destruct (Hbefore 0 ltac:(lia)) as (e & He & Hrate).
    rewrite Nat.add_0_r in He. rewrite He, Hrate.
    destruct (IH n (S a) (delay * 2)%Q (Some e)
                 (slept ++ [(delay + jitter a)%Q]) x ltac:(lia)) as (slept' & Hrun & Hlen).
    + intros j Hj. replace (S a + j) with (a + S j) by lia. apply Hbefore. lia.
    + by replace (S a + k) with (a + S k) by lia.
    + exists slept'. split; [done|]. rewrite Hlen, length_app. cbn. lia.
Qed.

Lemma retry_loop_gives_up k : forall n a delay last_exception slept e,
  k < n ->
  (forall j, j < k -> rate_limited func (a + j)) ->
  func (a + k) = Raise e -> Retry.is_rate_limit e = false ->
  exists slept',
    Retry.retry_loop func jitter (seq a n) delay last_exception slept =
      (Retry.Failed (Retry.Reraised e), slept') /\
    length slept' = length slept + k.
Proof.
  induction k as [|k IH];
    intros n a delay last_exception slept e Hk Hbefore Hcall Hother.
  - destruct n as [|n]; [lia|]. cbn [seq Retry.retry_loop].
    rewrite Nat.add_0_r in Hcall. rewrite Hcall, Hother.
    exists slept. split; [done|lia].
  - destruct n as [|n]; [lia|]. cbn [seq Retry.retry_loop].
    destruct (Hbefore 0 ltac:(lia)) as (e0 & He0 & Hrate).
    rewrite Nat.add_0_r in He0. rewrite He0, Hrate.
    destruct (IH n (S a) (delay * 2)%Q (Some e0)
                 (slept ++ [(delay + jitter a)%Q]) e ltac:(lia))
      as (slept' & Hrun & Hlen); [| |done|].
    + intros j Hj. replace (S a + j) with (a + S j) by lia. apply Hbefore. lia.
    + by replace (S a + k) with (a + S k) by lia.
    + exists slept'. split; [done|]. rewrite Hlen, length_app. cbn. lia.
Qed.

Lemma retry_loop_exhausted n : forall a delay last_exception slept e,
  (forall j, j < S n -> rate_limited func (a + j)) ->
  func (a + n) = Raise e ->
  exists slept',
    Retry.retry_loop func jitter (seq a (S n)) delay last_exception slept =
      (Retry.Failed (Retry.Reraised e), slept') /\
    length slept' = length slept + S n.
Proof.
  induction n as [|n IH]; intros a delay last_exception slept e Hall Hlast.
  - cbn [seq Retry.retry_loop].
    destruct (Hall 0 ltac:(lia)) as (e0 & He0 & Hrate).
    rewrite Nat.add_0_r in He0, Hlast. rewrite He0, Hrate.
    assert (e0 = e) as -> by congruence.
    eexists. split; [reflexivity|]. rewrite length_app. cbn. lia.
  - cbn [seq Retry.retry_loop].
    destruct (Hall 0 ltac:(lia)) as (e0 & He0 & Hrate).
    rewrite Nat.add_0_r in He0. rewrite He0, Hrate.
    destruct (IH (S a) (delay * 2)%Q (Some e0)
                 (slept ++ [(delay + jitter a)%Q]) e) as (slept' & Hrun & Hlen).
    + intros j Hj. replace (S a + j) with (a + S j) by lia. apply Hall. lia.
    + by replace (S a + n) with (a + S n) by lia.
    + exists slept'. split; [exact Hrun|]. rewrite Hlen, length_app. cbn. lia.
Qed.

End RetryFacts.


(** X19. How [fetch_with_retry] ends.  It returns the value of the first
    call that succeeds, and raises the exception of the first call that
    fails otherwise than by rate limiting, if that call is among the first
    [max_attempts] and every call before it was rate-limited, after one
    sleep per earlier call.  When all [max_attempts] calls are rate-limited
    it raises the last exception, having slept [max_attempts] times: also
    after the last call.  With [max_attempts = 0] it raises a
    [RuntimeError] without calling the function. *)
Theorem retry_outcome {A : Type} (func : nat -> result A) (jitter : nat -> Q)
    (max_attempts : nat) (initial_delay : Q) :
  let run := Retry.fetch_with_retry func jitter max_attempts initial_delay in
  (forall k x, k < max_attempts ->
     (forall j, j < k -> rate_limited func j) -> func k = Ok x ->
     run.1 = Retry.Returned x /\ length run.2 = k) /\
  (forall k e, k < max_attempts ->
     (forall j, j < k -> rate_limited func j) ->
     func k = Raise e -> Retry.is_rate_limit e = false ->
     run.1 = Retry.Failed (Retry.Reraised e) /\ length run.2 = k) /\
  (forall e, 0 < max_attempts ->
     (forall j, j < max_attempts -> rate_limited func j) ->
     func (max_attempts - 1) = Raise e ->
     run.1 = Retry.Failed (Retry.Reraised e) /\ length run.2 = max_attempts) /\
  (max_attempts = 0 ->
     run = (Retry.Failed (Retry.RuntimeError "Function failed for unknown reason"),
            [])).
Proof.
  cbn zeta. unfold Retry.fetch_with_retry, range. rewrite Nat.sub_0_r.
  split; [|split; [|split]].
  - intros k x Hk Hbefore Hcall.
    destruct (retry_loop_returns func jitter k max_attempts 0 initial_delay None
                [] x Hk Hbefore Hcall) as (slept & -> & Hlen).
    done.
  - intros k e Hk Hbefore Hcall Hother.
    destruct (retry_loop_gives_up func jitter k max_attempts 0 initial_delay None
                [] e Hk Hbefore Hcall Hother) as (slept & -> & Hlen).
    done.
  - intros e Hpos Hall Hlast.
    destruct max_attempts as [|n]; [lia|].
    replace (S n - 1) with n in Hlast by lia.
    destruct (retry_loop_exhausted func jitter n 0 initial_delay None [] e
                Hall Hlast) as (slept & -> & Hlen).
    done.
  - by intros ->.
Qed.

(** Two rate-limited calls, then an answer: the answer is returned after
    two sleeps, of 1.25 and 2.25 seconds. *)
Example retry_third_time_lucky :
  Retry.fetch_with_retry third_time_lucky quarter 5 1 =
  (Retry.Returned 7, [1 + 0.25; 1 * 2 + 0.25]%Q).
Proof. vm_compute. reflexivity. Qed.

(** Rate limiting throughout: five calls, five sleeps, the last one
    useless. *)
Example retry_exhausted :
  exists slept,
    Retry.fetch_with_retry (A := nat) (fun _ => Raise (LibraryError "HTTP 429"))
      quarter 5 1 =
    (Retry.Failed (Retry.Reraised (LibraryError "HTTP 429")), slept) /\
    length slept = 5.
Proof. eexists. vm_compute. done. Qed.

(** ** Ticker navigation *)

Section NavigationFacts.
Import Navigation.
Variable popular : list string.
Hypothesis popular_nonempty : popular <> [].

Lemma is_empty_false {A} (xs : list A) : xs <> [] -> is_empty xs = false.
Proof. by destruct xs. Qed.

Lemma is_empty_length {A} (xs : list A) : is_empty xs = false -> 0 < length xs.
Proof. destruct xs; [done|cbn; lia]. Qed.

Lemma item_at_in_range {A} (xs : list A) (i : Z) :
  (0 <= i < Z.of_nat (length xs))%Z ->
  exists x, item_at xs i = Ok x /\ xs !! Z.to_nat i = Some x.
Proof.
  intros Hi. unfold item_at.
  destruct (Z.ltb_spec i 0) as [|_]; [lia|].
  destruct (Z.ltb_spec i 0) as [|_]; [lia|].
  destruct (lookup_lt_is_Some_2 xs (Z.to_nat i) ltac:(lia)) as [x Hx].
  exists x. by rewrite Hx.
Qed.

Lemma initial_in_range : index_in_range popular initial.
Proof.
  unfold index_in_range, initial. cbn.
  destruct popular; [done|cbn; lia].
Qed.

Lemma search_in_range results st :
  index_in_range popular st -> index_in_range popular (search results st).
Proof.
  intros Hst. unfold search.
  destruct (is_empty results) eqn:Hresults; [done|].
  unfold index_in_range. cbn. rewrite Hresults.
  apply is_empty_length in Hresults. lia.
Qed.

Lemma move_in_range step st :
  exists st', move popular step st = Ok st' /\
              index_in_range popular st' /\
              search_results st' = search_results st.
Proof.
  unfold move, modulo_length.
  destruct (is_empty (search_results st)) eqn:Hresults.
  - rewrite (is_empty_false popular popular_nonempty). cbn.
    eexists. split; [done|]. split; [|done].
    unfold index_in_range. cbn. rewrite Hresults.
    apply Z.mod_pos_bound.
    pose proof (is_empty_length popular (is_empty_false _ popular_nonempty)). lia.
  - cbn.
    eexists. split; [done|]. split; [|done].
    unfold index_in_range. cbn. rewrite Hresults.
    apply Z.mod_pos_bound. apply is_empty_length in Hresults. lia.
Qed.

Lemma run_in_range query button st :
  index_in_range popular st ->
  exists st', run popular query button st = Ok st' /\ index_in_range popular st'.
Proof.
  intros Hst. unfold run.
  set (st1 := match query with Some results => search results st | None => st end).
  assert (Hst1 : index_in_range popular st1).
  { subst st1. destruct query; [by apply search_in_range|done]. }
  destruct button.
  - by exists st1.
  - destruct (move_in_range (-1) st1) as (st' & ? & ? & _). by exists st'.
  - destruct (move_in_range 1 st1) as (st' & ? & ? & _). by exists st'.
Qed.

Lemma runs_in_range inputs : forall st,
  index_in_range popular st ->
  exists st', runs popular inputs st = Ok st' /\ index_in_range popular st'.
Proof.
  induction inputs as [|[query button] rest IH]; intros st Hst.
  - by exists st.
  - destruct (run_in_range query button st Hst) as (st1 & Hrun & Hst1).
    destruct (IH st1 Hst1) as (st' & Hruns & Hst').
    exists st'. cbn [runs]. by rewrite Hrun.
Qed.

Lemma current_ticker_in_range st :
  index_in_range popular st ->
  exists ticker_symbol,
    get_current_ticker popular st = Ok ticker_symbol /\
    ticker_symbol ∈ (if is_empty (search_results st) then popular
                     else (search_results st).*1).
Proof.
  unfold index_in_range, get_current_ticker, modulo_length.
  destruct (is_empty (search_results st)) eqn:Hresults; intros Hst.
  - rewrite (is_empty_false popular popular_nonempty). cbn.
    destruct (item_at_in_range popular
                (ticker_index st mod Z.of_nat (length popular))%Z)
      as (x & -> & Hx).
    { apply Z.mod_pos_bound. lia. }
    exists x. split; [done|]. by eapply list_elem_of_lookup_2.
  - destruct (item_at_in_range (search_results st) (ticker_index st) Hst)
      as (entry & -> & Hentry).
    exists entry.1. split; [done|].
    apply list_elem_of_fmap_2. by eapply list_elem_of_lookup_2.
Qed.

End NavigationFacts.

(** X20. Whatever the user does (searches with or without results,
    Previous, Next, in any order), starting from the initial session state
    the controls of a tab never raise and the current ticker always exists:
    [get_current_ticker] returns an entry of the search results if there are
    any, of the popular list otherwise.  The popular list is not empty. *)
Theorem navigation_never_out_of_range (popular : list string)
    (inputs : list (option (list (string * Chart.InfoValue)) * Navigation.Button)) :
  popular <> [] ->
  exists st ticker_symbol,
    Navigation.runs popular inputs Navigation.initial = Ok st /\
    Navigation.get_current_ticker popular st = Ok ticker_symbol /\
    ticker_symbol ∈ (if is_empty (Navigation.search_results st) then popular
                     else (Navigation.search_results st).*1).
Proof.
  intros Hpopular.
  destruct (runs_in_range popular Hpopular inputs Navigation.initial
              (initial_in_range popular Hpopular)) as (st & Hruns & Hst).
  destruct (current_ticker_in_range popular Hpopular st Hst)
    as (ticker_symbol & Hticker & Hin).
  by exists st, ticker_symbol.
Qed.

Lemma navigation_never_out_of_range_example :
  exists st ticker_symbol,
    Navigation.runs Market.POPULAR_FUTURES
      [(None, Navigation.Previous);
       (Some [("GC=F", Chart.VStr "Gold"); ("SI=F", Chart.VStr "Silver")],
        Navigation.NoButton);
       (None, Navigation.Next); (Some [], Navigation.Next)]
      Navigation.initial = Ok st /\
    Navigation.get_current_ticker Market.POPULAR_FUTURES st = Ok ticker_symbol /\
    ticker_symbol ∈ (if is_empty (Navigation.search_results st)
                     then Market.POPULAR_FUTURES
                     else (Navigation.search_results st).*1).
Proof.
  apply (navigation_never_out_of_range Market.POPULAR_FUTURES). discriminate.
Defined.



(** X22. A run in which the search box holds a query with results resets
    the index before the buttons are read: Next then always leads to the
    second result (the first, if there is only one) and Previous to the last
    one, whatever the index was. *)
Theorem search_resets_before_buttons (popular : list string)
    (results : list (string * Chart.InfoValue)) (st : Navigation.State) :
  results <> [] ->
  Navigation.run popular (Some results) Navigation.Next st =
    Ok {| Navigation.ticker_index := (1 mod Z.of_nat (length results))%Z;
          Navigation.search_results := results |} /\
  Navigation.run popular (Some results) Navigation.Previous st =
    Ok {| Navigation.ticker_index := (Z.of_nat (length results) - 1)%Z;
          Navigation.search_results := results |}.
Proof.
  intros Hresults. unfold Navigation.run, Navigation.search, Navigation.move,
    Navigation.modulo_length.
  rewrite (is_empty_false results Hresults). cbn.
  rewrite (is_empty_false results Hresults). cbn.
  split; [done|]. do 2 f_equal.
  pose proof (is_empty_length results (is_empty_false results Hresults)).
  symmetry. apply (Z.mod_unique_pos _ _ (-1)); lia.
Qed.

Lemma search_resets_before_buttons_example :
  Navigation.run Market.POPULAR_FUTURES
    (Some [("GC=F", Chart.VStr "Gold"); ("SI=F", Chart.VStr "Silver");
           ("HG=F", Chart.VStr "Copper")])
    Navigation.Next
    {| Navigation.ticker_index := 2;
       Navigation.search_results :=
         [("GC=F", Chart.VStr "Gold"); ("SI=F", Chart.VStr "Silver");
          ("HG=F", Chart.VStr "Copper")] |} =
    Ok {| Navigation.ticker_index := (1 mod Z.of_nat 3)%Z;
          Navigation.search_results :=
            [("GC=F", Chart.VStr "Gold"); ("SI=F", Chart.VStr "Silver");
             ("HG=F", Chart.VStr "Copper")] |} /\
  Navigation.run Market.POPULAR_FUTURES
    (Some [("GC=F", Chart.VStr "Gold"); ("SI=F", Chart.VStr "Silver");
           ("HG=F", Chart.VStr "Copper")])
    Navigation.Previous
    {| Navigation.ticker_index := 2;
       Navigation.search_results :=
         [("GC=F", Chart.VStr "Gold"); ("SI=F", Chart.VStr "Silver");
          ("HG=F", Chart.VStr "Copper")] |} =
    Ok {| Navigation.ticker_index := (Z.of_nat 3 - 1)%Z;
          Navigation.search_results :=
            [("GC=F", Chart.VStr "Gold"); ("SI=F", Chart.VStr "Silver");
             ("HG=F", Chart.VStr "Copper")] |}.
Proof.
  apply (search_resets_before_buttons Market.POPULAR_FUTURES
           [("GC=F", Chart.VStr "Gold"); ("SI=F", Chart.VStr "Silver");
            ("HG=F", Chart.VStr "Copper")]).
  discriminate.
Defined.

(** ** Display names *)

Lemma string_take_drop n s : Market.string_take n s +:+ Market.string_drop n s = s.
Proof.
  revert s. induction n as [|n IH]; intros s; [done|].
  destruct s as [|a rest]; [done|].
  change (String a (Market.string_take n rest +:+ Market.string_drop n rest) =
          String a rest).
  f_equal. apply IH.
Qed.

Lemma string_take_length n s : String.length (Market.string_take n s) <= n.
Proof.
  revert s. induction n as [|n IH]; intros s; [done|].
  destruct s as [|a rest]; cbn; [lia|]. specialize (IH rest). lia.
Qed.

Lemma currency_name_of_error provider ticker e :
  provider ticker = Raise e ->
  Market.get_currency_info provider ticker !! "name" =
  Some (Chart.VStr (Market.pair_name ticker)).
Proof.
  intros Hfail. unfold Market.get_currency_info. rewrite Hfail. reflexivity.
Qed.

(** X23. The display name of a currency pair.  A ticker with an [=] is
    shown as BASE/QUOTE, where BASE (at most three characters) followed by
    QUOTE is the ticker up to the [=]; a ticker without [=] is shown as it
    is.  [get_currency_info] uses this name both when the lookup raised and
    when the metadata has no [shortName]. *)
Theorem currency_pair_name (provider : string -> result Market.Info)
    (ticker : string) :
  (Market.has_char "="%char ticker = true ->
   exists base quote,
     Market.pair_name ticker = base +:+ "/" +:+ quote /\
     base +:+ quote = Market.before_char "="%char ticker /\
     String.length base <= 3) /\
  (Market.has_char "="%char ticker = false -> Market.pair_name ticker = ticker) /\
  (forall e, provider ticker = Raise e ->
     Market.get_currency_info provider ticker !! "name" =
     Some (Chart.VStr (Market.pair_name ticker))) /\
  (forall info, provider ticker = Ok info -> info !! "shortName" = None ->
     Market.get_currency_info provider ticker !! "name" =
     Some (Chart.VStr (Market.pair_name ticker))).
Proof.
  split; [|split; [|split]].
  - intros Heq. unfold Market.pair_name. rewrite Heq. cbn zeta.
    eexists _, _. split; [done|].
    split; [apply string_take_drop|apply string_take_length].
  - intros Heq. unfold Market.pair_name. by rewrite Heq.
  - intros e. apply currency_name_of_error.
  - intros info Hinfo Hmissing. unfold Market.get_currency_info.
    rewrite Hinfo. cbn [mbind result_bind try_except].
    do 9 (rewrite lookup_insert_ne by done). rewrite lookup_insert_eq.
    unfold Market.get. by rewrite Hmissing.
Qed.

(** Every popular currency pair is shown as three letters, a slash and
    three letters. *)
Example popular_pair_names :
  Market.pair_name <$> take 3 Market.POPULAR_CURRENCIES =
    ["EUR/USD"; "USD/JPY"; "GBP/USD"] /\
  Forall (fun ticker =>
            String.length (Market.pair_name ticker) = 7 /\
            String.get 3 (Market.pair_name ticker) = Some "/"%char)
         Market.POPULAR_CURRENCIES.
Proof. split; [reflexivity|]. repeat constructor. Qed.

(** ** The chart title and the metadata *)

Ltac info_lookup :=
  repeat first [rewrite lookup_insert_eq | rewrite lookup_insert_ne by done].

(** X24. The title of the chart distinguishes a failed lookup from a
    missing field.  From the metadata of a lookup that raised, the market
    cap and the supply read [N/A]; from metadata that was returned without
    [marketCap] and [circulatingSupply] they read [None], because
    [get_crypto_info] stores the absent fields as [None] and the composer's
    fallback [N/A] is for an absent key only. *)
Theorem chart_title_of_missing_fields (str_number format_grouped : Q -> string)
    (provider : string -> result Market.Info) (ticker : string) :
  (forall e, provider ticker = Raise e ->
     exists chart_layout,
       Chart.chart_layout str_number format_grouped ticker
         (Some (Market.get_crypto_info provider ticker)) = Ok chart_layout /\
       Chart.title chart_layout =
         ticker +:+ " (" +:+ ticker +:+ ") | Market Cap: N/A | Supply: N/A") /\
  (forall info, provider ticker = Ok info ->
     info !! "marketCap" = None -> info !! "circulatingSupply" = None ->
     exists chart_layout,
       Chart.chart_layout str_number format_grouped ticker
         (Some (Market.get_crypto_info provider ticker)) = Ok chart_layout /\
       Chart.title chart_layout =
         Chart.display str_number (Market.get info "name" (Chart.VStr ticker)) +:+
         " (" +:+ ticker +:+ ") | Market Cap: None | Supply: None").
Proof.
  split.
  - intros e Hfail. unfold Market.get_crypto_info. rewrite Hfail.
    eexists. split; reflexivity.
  - intros info Hinfo Hcap Hsupply.
    unfold Market.get_crypto_info. rewrite Hinfo.
    cbn [mbind result_bind try_except].
    unfold Chart.chart_layout, Chart.info_get.
    cbn [mbind result_bind]. info_lookup.
    eexists. split; [reflexivity|]. cbn [Chart.title default].
    unfold Market.get at 2 3. rewrite Hcap, Hsupply. reflexivity.
Qed.

Lemma chart_title_of_missing_fields_example :
  (forall e, only_bitcoin "BTC-USD" = Raise e ->
     exists chart_layout,
       Chart.chart_layout (fun _ => "0") (fun _ => "0") "BTC-USD"
         (Some (Market.get_crypto_info only_bitcoin "BTC-USD")) = Ok chart_layout /\
       Chart.title chart_layout =
         "BTC-USD" +:+ " (" +:+ "BTC-USD" +:+ ") | Market Cap: N/A | Supply: N/A") /\
  (forall info, only_bitcoin "BTC-USD" = Ok info ->
     info !! "marketCap" = None -> info !! "circulatingSupply" = None ->
     exists chart_layout,
       Chart.chart_layout (fun _ => "0") (fun _ => "0") "BTC-USD"
         (Some (Market.get_crypto_info only_bitcoin "BTC-USD")) = Ok chart_layout /\
       Chart.title chart_layout =
         Chart.display (fun _ => "0")
           (Market.get info "name" (Chart.VStr "BTC-USD")) +:+
         " (" +:+ "BTC-USD" +:+ ") | Market Cap: None | Supply: None").
Proof.
  exact (chart_title_of_missing_fields (fun _ => "0") (fun _ => "0")
           only_bitcoin "BTC-USD").
Defined.

(** The two titles, computed. *)
Example chart_titles :
  Chart.title <$> (match Chart.chart_layout (fun _ => "0") (fun _ => "0") "BTC-USD"
                           (Some (Market.get_crypto_info only_bitcoin "BTC-USD")) with
                   | Ok l => Some l | Raise _ => None end) =
    Some "Bitcoin USD (BTC-USD) | Market Cap: None | Supply: None" /\
  Chart.title <$> (match Chart.chart_layout (fun _ => "0") (fun _ => "0") "BTC-USD"
                           (Some (Market.get_crypto_info offline "BTC-USD")) with
                   | Ok l => Some l | Raise _ => None end) =
    Some "BTC-USD (BTC-USD) | Market Cap: N/A | Supply: N/A".
Proof. split; vm_compute; reflexivity. Qed.
